(** * Text Q&A assistant: a model of [document_loader.py]

    The script is a Streamlit page: every user interaction re-runs [main]
    from the top against the session store.  The model below follows the
    script line by line.  Python strings are sequences of code points,
    the session store is a record, and one run of the script is a
    computation in a small monad that threads the session, the cached
    model client, the rendered elements and the log of calls to the
    model service, and that can stop early, either with Streamlit's
    rerun request or with an uncaught exception. *)

From Stdlib Require Import String Ascii DecimalString.
From Stdlib.Strings Require Import Byte.
From Stdlib Require Import List ZArith NArith QArith Lia Bool.
Import ListNotations.

Local Open Scope Z_scope.

(** ** Python strings *)

Module PyStr.

(** A [str] is a sequence of Unicode code points; [len] counts them. *)
Definition pystr := list N.

Definition str (s : string) : pystr :=
  map N_of_ascii (list_ascii_of_string s).

Definition len (s : pystr) : Z := Z.of_nat (length s).

(** Truth value of a string: non-empty. *)
Definition truthy (s : pystr) : bool :=
  match s with [] => false | _ :: _ => true end.

Definition pystr_eqb (a b : pystr) : bool :=
  if list_eq_dec N.eq_dec a b then true else false.

(** The code points CPython treats as whitespace in [str.split()] and
    [str.strip()]. *)
Definition isspace (c : N) : bool :=
  (((9 <=? c) && (c <=? 13)) || ((28 <=? c) && (c <=? 32))
   || (c =? 133) || (c =? 160) || (c =? 5760)
   || ((8192 <=? c) && (c <=? 8202))
   || (c =? 8232) || (c =? 8233) || (c =? 8239) || (c =? 8287)
   || (c =? 12288))%N.

Fixpoint lstrip (s : pystr) : pystr :=
  match s with
  | [] => []
  | c :: s' => if isspace c then lstrip s' else s
  end.

Definition rstrip (s : pystr) : pystr := rev (lstrip (rev s)).

(** [s.strip()] *)
Definition strip (s : pystr) : pystr := rstrip (lstrip s).

(** [s.split()]: the maximal runs of non-whitespace code points.  [cur]
    holds the word being read, reversed. *)
Fixpoint split_ws_from (cur : pystr) (s : pystr) : list pystr :=
  match s with
  | [] => match cur with [] => [] | _ :: _ => [rev cur] end
  | c :: s' =>
      if isspace c then
        match cur with
        | [] => split_ws_from [] s'
        | _ :: _ => rev cur :: split_ws_from [] s'
        end
      else split_ws_from (c :: cur) s'
  end.

Definition split_ws (s : pystr) : list pystr := split_ws_from [] s.

(** [s.split(sep)] for a separator of one code point. *)
Fixpoint split_on_from (sep : N) (cur : pystr) (s : pystr) : list pystr :=
  match s with
  | [] => [rev cur]
  | c :: s' =>
      if (c =? sep)%N then rev cur :: split_on_from sep [] s'
      else split_on_from sep (c :: cur) s'
  end.

Definition split_on (sep : N) (s : pystr) : list pystr :=
  split_on_from sep [] s.

(** [s[:n]] for [n >= 0]. *)
Definition slice_to (n : nat) (s : pystr) : pystr := firstn n s.

(** [xs[-n:]] for [n > 0]: the last [n] elements, all of them when the
    list is shorter. *)
Definition slice_last {A} (n : nat) (xs : list A) : list A :=
  skipn (length xs - n) xs.

(** [f"{n}"] for a non-negative integer. *)
Definition format_int (n : Z) : pystr :=
  str (NilZero.string_of_uint (N.to_uint (Z.to_N n))).

(** Thousands separators, on the reversed digits. *)
Fixpoint group3 (rdigits : pystr) : pystr :=
  match rdigits with
  | a :: b :: c :: ((_ :: _) as rest) => a :: b :: c :: 44%N :: group3 rest
  | _ => rdigits
  end.

(** [f"{n:,}"] for a non-negative integer. *)
Definition format_int_comma (n : Z) : pystr :=
  rev (group3 (rev (format_int n))).

(** [round(n / d)] for integers [n >= 0] and [d > 0]: Python 3 divides in
    floating point and rounds to the nearest integer, a tie going to the
    even neighbour.  A tie [q + 1/2] is exactly representable and every
    other quotient is at least [1/(2d)] away from one, far more than the
    rounding error of the division for any count a text can reach, so the
    result is the exact one computed here. *)
Definition py_round_div (n d : Z) : Z :=
  let q := n / d in
  let r := n mod d in
  if 2 * r <? d then q
  else if d <? 2 * r then q + 1
  else if Z.even q then q else q + 1.

End PyStr.

Import PyStr.

(** ** The session store *)

(** One entry of [qa_history]: the dict appended at each submission. *)
Record QAEntry := {
  question : pystr;
  answer : pystr;
  timestamp : pystr
}.

(** [st.session_state] as Streamlit keeps it between runs: a key may be
    missing. *)
Record SessionState := {
  ss_user_text : option pystr;
  ss_qa_history : option (list QAEntry);
  ss_current_answer : option pystr;
  ss_file_uploaded : option bool;
  ss_file_name : option pystr
}.

(** The store once [init_session_state] has run: every key is present. *)
Record Session := {
  user_text : pystr;
  qa_history : list QAEntry;
  current_answer : pystr;
  file_uploaded : bool;
  file_name : pystr
}.

Definition or_default {A} (d : A) (o : option A) : A :=
  match o with Some a => a | None => d end.

Definition init_session_state (raw : SessionState) : Session :=
  {| user_text := or_default [] (ss_user_text raw);
     qa_history := or_default [] (ss_qa_history raw);
     current_answer := or_default [] (ss_current_answer raw);
     file_uploaded := or_default false (ss_file_uploaded raw);
     file_name := or_default [] (ss_file_name raw) |}.

(** What Streamlit keeps of a session at the end of a run. *)
Definition stored (s : Session) : SessionState :=
  {| ss_user_text := Some (user_text s);
     ss_qa_history := Some (qa_history s);
     ss_current_answer := Some (current_answer s);
     ss_file_uploaded := Some (file_uploaded s);
     ss_file_name := Some (file_name s) |}.

(** A session nobody has touched yet. *)
Definition fresh_state : SessionState :=
  {| ss_user_text := None; ss_qa_history := None; ss_current_answer := None;
     ss_file_uploaded := None; ss_file_name := None |}.

Definition set_user_text (v : pystr) (s : Session) : Session :=
  {| user_text := v; qa_history := qa_history s;
     current_answer := current_answer s; file_uploaded := file_uploaded s;
     file_name := file_name s |}.

Definition set_qa_history (v : list QAEntry) (s : Session) : Session :=
  {| user_text := user_text s; qa_history := v;
     current_answer := current_answer s; file_uploaded := file_uploaded s;
     file_name := file_name s |}.

Definition set_current_answer (v : pystr) (s : Session) : Session :=
  {| user_text := user_text s; qa_history := qa_history s;
     current_answer := v; file_uploaded := file_uploaded s;
     file_name := file_name s |}.

Definition set_file_uploaded (v : bool) (s : Session) : Session :=
  {| user_text := user_text s; qa_history := qa_history s;
     current_answer := current_answer s; file_uploaded := v;
     file_name := file_name s |}.

Definition set_file_name (v : pystr) (s : Session) : Session :=
  {| user_text := user_text s; qa_history := qa_history s;
     current_answer := current_answer s; file_uploaded := file_uploaded s;
     file_name := v |}.

(** ** The outside world *)

(** An exception raised by a library.  [is_exception] tells whether it is
    an instance of [Exception], the ones [except Exception] catches;
    [KeyboardInterrupt], [SystemExit] and Streamlit's script-control
    exceptions are not.  [exn_str] is [str(e)]. *)
Record Exn := { is_exception : bool; exn_str : pystr }.

(** The model client: [invoke] sends a rendered prompt to the remote
    service and yields the raw reply, or raises. *)
Record ChatModel := { invoke : pystr -> Exn + pystr }.

Record UploadedFile := {
  name : pystr;
  read : list byte       (* what [uploaded_file.read()] returns *)
}.

(** Everything one run of the script obtains from outside: the process
    environment after [load_dotenv()], the behaviour of the libraries and
    the clock.  A run calls the model at most once, so a fresh [Env] per
    run also covers a remote model whose replies vary. *)
Record Env := {
  GOOGLE_API_KEY : option pystr;
  ChatGoogleGenerativeAI : option pystr -> Q -> pystr -> Exn + ChatModel;
  StrOutputParser : pystr -> Exn + pystr;
  decode_utf8 : list byte -> Exn + pystr;    (* [bytes.decode("utf-8")] *)
  now_HMS : pystr          (* datetime.now().strftime("%H:%M:%S") *)
}.

(** The widget values of a run.  [text_area] maps the [value=] argument
    the script passes to what the widget returns: that argument itself
    while the user has not typed, the typed text otherwise. *)
Record Widgets := {
  clear_button : bool;
  file_uploader : option UploadedFile;
  text_area : pystr -> pystr;
  text_input : pystr;
  form_submit_button : bool
}.

(** The elements a run displays, in order. *)
Inductive Render :=
| SidebarTitle
| SidebarHelp
| PageTitle
| Rule                                         (* st.markdown("---") *)
| Subheader (n : Z)
| SuccessUploaded (file : pystr)
| StatisticsHeader
| Metric (label value : pystr)
| InfoLoadedFrom (file : pystr)
| WarningLargeText
| InfoEnterText
| Spinner
| LatestAnswer (body : pystr)
| Expander (label : pystr) (body : list pystr)
| OriginalText (body : pystr)
| Footer.

(** Calls that leave the process. *)
Inductive Call :=
| ConstructModel (key : option pystr)
| InvokeModel (prompt : pystr).

(** ** Script runs *)

Record World := {
  session : Session;
  model_cache : option ChatModel;       (* st.cache_resource *)
  output : list Render;
  calls : list Call
}.

Inductive Flow (A : Type) :=
| Normal (a : A)
| RerunException
| Uncaught (e : Exn).
Arguments Normal {A} a.
Arguments RerunException {A}.
Arguments Uncaught {A} e.

Definition Script (A : Type) := World -> Flow A * World.

Definition ret {A} (a : A) : Script A := fun w => (Normal a, w).

Definition bind {A B} (c : Script A) (k : A -> Script B) : Script B :=
  fun w =>
    match c w with
    | (Normal a, w') => k a w'
    | (RerunException, w') => (RerunException, w')
    | (Uncaught e, w') => (Uncaught e, w')
    end.

Declare Scope script_scope.
Delimit Scope script_scope with script.
Bind Scope script_scope with Script.
Notation "x <- c ;; k" := (bind c (fun x => k))
  (at level 61, c at next level, right associativity) : script_scope.
Notation "c ;; k" := (bind c (fun _ => k))
  (at level 61, right associativity) : script_scope.
Local Open Scope script_scope.

Definition get : Script Session := fun w => (Normal (session w), w).

Definition modify (f : Session -> Session) : Script unit :=
  fun w => (Normal tt,
            {| session := f (session w); model_cache := model_cache w;
               output := output w; calls := calls w |}).

Definition emit (r : Render) : Script unit :=
  fun w => (Normal tt,
            {| session := session w; model_cache := model_cache w;
               output := output w ++ [r]; calls := calls w |}).

Definition call (c : Call) : Script unit :=
  fun w => (Normal tt,
            {| session := session w; model_cache := model_cache w;
               output := output w; calls := calls w ++ [c] |}).

Definition get_cache : Script (option ChatModel) :=
  fun w => (Normal (model_cache w), w).

Definition set_cache (m : ChatModel) : Script unit :=
  fun w => (Normal tt,
            {| session := session w; model_cache := Some m;
               output := output w; calls := calls w |}).

Definition raise {A} (e : Exn) : Script A := fun w => (Uncaught e, w).

(** [st.rerun()] *)
Definition rerun {A} : Script A := fun w => (RerunException, w).

(** The result of a library call: its value, or the exception raised. *)
Definition lift {A} (r : Exn + A) : Script A :=
  match r with inl e => raise e | inr a => ret a end.

(** [try: body except Exception as e: handler e].  Only an instance of
    [Exception] reaches the handler; any other exception, and Streamlit's
    rerun request, pass through. *)
Definition try_except {A} (body : Script A) (handler : Exn -> Script A)
  : Script A :=
  fun w =>
    match body w with
    | (Uncaught e, w') =>
        if is_exception e then handler e w' else (Uncaught e, w')
    | r => r
    end.

Definition when (b : bool) (c : Script unit) : Script unit :=
  if b then c else ret tt.

Fixpoint for_each {A} (xs : list A) (body : A -> Script unit) : Script unit :=
  match xs with
  | [] => ret tt
  | x :: xs' => body x ;; for_each xs' body
  end.

(** [enumerate(xs)] *)
Definition enumerate {A} (xs : list A) : list (nat * A) :=
  combine (seq 0 (length xs)) xs.

(** ** The answer generation chain *)

Definition temperature : Q := 7 # 10.
Definition model_id : pystr := str "models/gemini-1.5-flash-latest".

(** [init_model], under [st.cache_resource]: the client is built on the
    first call and kept; a constructor that raises leaves nothing cached. *)
Definition init_model (env : Env) : Script ChatModel :=
  cached <- get_cache ;;
  match cached with
  | Some m => ret m
  | None =>
      call (ConstructModel (GOOGLE_API_KEY env)) ;;
      m <- lift (ChatGoogleGenerativeAI env (GOOGLE_API_KEY env)
                   temperature model_id) ;;
      set_cache m ;;
      ret m
  end.

Definition template_head : pystr :=
  str "Based on the following text context, please answer the question accurately and concisely.

Context:
".

Definition template_middle : pystr :=
  str "

Question: ".

Definition template_tail : pystr :=
  str "

Answer: Please provide a clear and informative answer based only on the information provided in the context. If the answer cannot be found in the context, please state that clearly.".

(** The prompt template with [{context}] and [{question}] filled in. *)
Definition format_prompt (context question : pystr) : pystr :=
  template_head ++ context ++ template_middle ++ question ++ template_tail.

Definition error_prefix : pystr := str "Error generating answer: ".

Definition generate_answer (env : Env) (context_text question : pystr)
  : Script pystr :=
  try_except
    (model <- init_model env ;;
     let prompt := format_prompt context_text question in
     call (InvokeModel prompt) ;;
     message <- lift (invoke model prompt) ;;
     result <- lift (StrOutputParser env message) ;;
     ret result)
    (fun e => ret (error_prefix ++ exn_str e)).

(** ** The page *)

Definition sidebar (ui : Widgets) : Script unit :=
  emit SidebarTitle ;;
  emit SidebarHelp ;;
  when (clear_button ui)
    (modify (set_user_text []) ;;
     modify (set_qa_history []) ;;
     modify (set_current_answer []) ;;
     modify (set_file_uploaded false) ;;
     modify (set_file_name []) ;;
     rerun).

Definition upload_section (env : Env) (ui : Widgets) : Script unit :=
  match file_uploader ui with
  | Some uploaded_file =>
      file_content <- lift (decode_utf8 env (read uploaded_file)) ;;
      modify (set_user_text file_content) ;;
      modify (set_file_uploaded true) ;;
      modify (set_file_name (name uploaded_file)) ;;
      emit (SuccessUploaded (name uploaded_file))
  | None => ret tt
  end.

Definition text_section (ui : Widgets) : Script unit :=
  s <- get ;;
  let typed := text_area ui (user_text s) in
  when (negb (pystr_eqb typed (user_text s)))
    (modify (set_user_text typed) ;;
     modify (set_file_uploaded false) ;;
     modify (set_file_name [])).

Definition word_count (text : pystr) : Z :=
  Z.of_nat (length (split_ws text)).

Definition reading_time (text : pystr) : Z :=
  Z.max 1 (py_round_div (word_count text) 200).

Definition large_text_limit : Z := 50000.

Definition statistics_section : Script unit :=
  s <- get ;;
  when (truthy (user_text s))
    (emit StatisticsHeader ;;
     emit (Metric (str "Characters") (format_int_comma (len (user_text s)))) ;;
     emit (Metric (str "Words")
             (format_int_comma (Z.of_nat (length (split_ws (user_text s)))))) ;;
     emit (Metric (str "Lines")
             (format_int_comma
                (Z.of_nat (length (split_on 10 (user_text s)))))) ;;
     emit (Metric (str "Est. Reading Time")
             (format_int (reading_time (user_text s)) ++ str " min")) ;;
     when (file_uploaded s) (emit (InfoLoadedFrom (file_name s))) ;;
     when (large_text_limit <? len (user_text s)) (emit WarningLargeText)).

Definition question_section (env : Env) (ui : Widgets) : Script unit :=
  s <- get ;;
  if truthy (strip (user_text s)) then
    let asked := text_input ui in
    let submitted := form_submit_button ui in
    when (submitted && truthy (strip asked))
      (emit Spinner ;;
       reply <- generate_answer env (user_text s) asked ;;
       modify (fun s' =>
                 set_qa_history
                   (qa_history s' ++
                    [{| question := asked; answer := reply;
                        timestamp := now_HMS env |}]) s') ;;
       modify (set_current_answer reply) ;;
       rerun)
  else emit InfoEnterText.

Definition answer_section : Script unit :=
  s <- get ;;
  when (truthy (current_answer s))
    (emit Rule ;;
     emit (Subheader 3) ;;
     emit (LatestAnswer (current_answer s))).

(** The label and body of one history entry; [i] is its position in the
    panel and [total] the length of the whole history. *)
Definition history_expander (total : nat) (item : nat * QAEntry) : Render :=
  let (i, qa) := item in
  Expander
    (str "Q" ++ format_int (Z.of_nat total - Z.of_nat i) ++ str ": "
     ++ slice_to 50 (question qa) ++ str "... (" ++ timestamp qa ++ str ")")
    [str "**Question:**"; question qa; str "**Answer:**"; answer qa].

Definition history_section : Script unit :=
  s <- get ;;
  when (match qa_history s with [] => false | _ :: _ => true end)
    (emit Rule ;;
     emit (Subheader 4) ;;
     for_each (enumerate (rev (slice_last 5 (qa_history s))))
       (fun item => emit (history_expander (length (qa_history s)) item))).

Definition original_text_section : Script unit :=
  s <- get ;;
  when (truthy (user_text s))
    (emit Rule ;;
     emit (OriginalText (user_text s))).

Definition page (env : Env) (ui : Widgets) : Script unit :=
  sidebar ui ;;
  emit PageTitle ;;
  emit Rule ;;
  emit (Subheader 1) ;;
  upload_section env ui ;;
  text_section ui ;;
  statistics_section ;;
  emit Rule ;;
  emit (Subheader 2) ;;
  question_section env ui ;;
  answer_section ;;
  history_section ;;
  original_text_section ;;
  emit Rule ;;
  emit Footer.

(** One run of the script: [init_session_state()], then the page. *)
Definition main (env : Env) (ui : Widgets) (raw : SessionState)
    (cache : option ChatModel) : Flow unit * World :=
  page env ui {| session := init_session_state raw; model_cache := cache;
                 output := []; calls := [] |}.

(** ** Concrete surroundings used in the examples *)

Module Demo.

Definition blue_model : ChatModel :=
  {| invoke := fun _ => inr (str "The sky is blue.") |}.

Definition missing_key : Exn :=
  {| is_exception := true; exn_str := str "API key required" |}.

Definition not_utf8 : Exn :=
  {| is_exception := true; exn_str := str "invalid start byte" |}.

(** [KeyboardInterrupt()], which is not an [Exception]. *)
Definition keyboard_interrupt : Exn :=
  {| is_exception := false; exn_str := [] |}.

(** A client whose call is interrupted from the keyboard. *)
Definition interrupted_model : ChatModel :=
  {| invoke := fun _ => inl keyboard_interrupt |}.

(** A client whose call fails with an ordinary error. *)
Definition quota_exceeded : Exn :=
  {| is_exception := true; exn_str := str "quota exceeded" |}.

Definition failing_model : ChatModel :=
  {| invoke := fun _ => inl quota_exceeded |}.

(** A constructor that insists on the credential, and a decoder that
    accepts the one-byte sequences of UTF-8. *)
Definition env (key : option pystr) : Env :=
  {| GOOGLE_API_KEY := key;
     ChatGoogleGenerativeAI := fun k _ _ =>
       match k with Some _ => inr blue_model | None => inl missing_key end;
     StrOutputParser := fun message => inr message;
     decode_utf8 := fun bytes =>
       let points := map Byte.to_N bytes in
       if forallb (fun b => (b <? 128)%N) points then inr points
       else inl not_utf8;
     now_HMS := str "09:30:00" |}.

(** Nothing clicked, nothing uploaded, nothing typed. *)
Definition idle : Widgets :=
  {| clear_button := false; file_uploader := None;
     text_area := fun value => value; text_input := [];
     form_submit_button := false |}.

Definition typing (text : pystr) : Widgets :=
  {| clear_button := false; file_uploader := None;
     text_area := fun _ => text; text_input := [];
     form_submit_button := false |}.

Definition asking (q : pystr) : Widgets :=
  {| clear_button := false; file_uploader := None;
     text_area := fun value => value; text_input := q;
     form_submit_button := true |}.

Definition clearing : Widgets :=
  {| clear_button := true; file_uploader := None;
     text_area := fun value => value; text_input := [];
     form_submit_button := false |}.

Definition uploading (f : UploadedFile) : Widgets :=
  {| clear_button := false; file_uploader := Some f;
     text_area := fun value => value; text_input := [];
     form_submit_button := false |}.

Definition sky : SessionState :=
  {| ss_user_text := Some (str "The sky is blue.");
     ss_qa_history := None; ss_current_answer := None;
     ss_file_uploaded := None; ss_file_name := None |}.

(** A text of [n] one-letter words. *)
Definition words (n : nat) : pystr := concat (repeat (str "a ") n).

End Demo.

(** ** Vocabulary of the statements *)

(** What the specification's wording asks of the reading time: the
    quotient rounded up, at least 1. *)
Definition rounded_up_minutes (words : Z) : Z :=
  Z.max 1 ((words + 199) / 200).

(** The world after some more elements have been displayed. *)
Definition shown (extra : list Render) (w : World) : World :=
  {| session := session w; model_cache := model_cache w;
     output := output w ++ extra; calls := calls w |}.

(** [qa_history[-1]], when there is one. *)
Definition last_entry (h : list QAEntry) : option QAEntry := hd_error (rev h).

(** The latest answer is the one of the newest history entry. *)
Definition latest_recorded (s : Session) : Prop :=
  match last_entry (qa_history s) with
  | Some qa => current_answer s = answer qa
  | None => True
  end.

(** [c], run in [w], displays [extra] and does nothing else. *)
Definition displays (c : Script unit) (w : World) (extra : list Render)
  : Prop :=
  c w = (Normal tt, shown extra w).

(** What [except Exception] in [generate_answer] makes of an exception
    raised in its [try] block: the error text, or the exception itself
    when it is not an [Exception]. *)
Definition caught (e : Exn) : Flow pystr :=
  if is_exception e then Normal (error_prefix ++ exn_str e) else Uncaught e.

(** The question form is drawn, its button was pressed and the question
    is not blank. *)
Definition submits (ui : Widgets) (s : Session) : bool :=
  truthy (strip (user_text s))
  && (form_submit_button ui && truthy (strip (text_input ui))).

(** The store once [reply] has been recorded for the question asked. *)
Definition recorded (env : Env) (ui : Widgets) (reply : pystr) (s : Session)
  : Session :=
  set_current_answer reply
    (set_qa_history
       (qa_history s ++
        [{| question := text_input ui; answer := reply;
            timestamp := now_HMS env |}]) s).

Definition page_head : list Render :=
  [SidebarTitle; SidebarHelp; PageTitle; Rule; Subheader 1].

Definition empty_session : Session :=
  {| user_text := []; qa_history := []; current_answer := [];
     file_uploaded := false; file_name := [] |}.

(** A visit: the runs of the script one after the other, each with the
    widget values and surroundings of its moment, the store and the cached
    client passing from one run to the next. *)
Fixpoint visit (runs : list (Env * Widgets)) (raw : SessionState)
    (cache : option ChatModel) : SessionState * option ChatModel :=
  match runs with
  | [] => (raw, cache)
  | (env, ui) :: rest =>
      let w := snd (main env ui raw cache) in
      visit rest (stored (session w)) (model_cache w)
  end.

(** A code point that is not whitespace. *)
Definition nonspace (c : N) : bool := negb (isspace c).

(** [chr(10)] *)
Definition newline : N := 10%N.

(** The calls that reach the remote model. *)
Definition is_invoke (c : Call) : bool :=
  match c with InvokeModel _ => true | ConstructModel _ => false end.

(** The elements that belong to the statistics panel. *)
Definition is_statistic (r : Render) : bool :=
  match r with
  | StatisticsHeader | Metric _ _ | InfoLoadedFrom _ | WarningLargeText => true
  | _ => false
  end.

(** * Properties *)

Example split_ws_example :
  split_ws (str "  the sky
 is   blue. ") = [str "the"; str "sky"; str "is"; str "blue."].
Proof. reflexivity. Qed.

Example strip_example : strip (str "   what?  ") = str "what?".
Proof. reflexivity. Qed.

Example split_on_example :
  split_on 10 (str "a
b
") = [str "a"; str "b"; []].
Proof. reflexivity. Qed.

Example format_int_comma_example :
  format_int_comma 1234567 = str "1,234,567" /\
  format_int_comma 0 = str "0" /\
  format_int_comma 123 = str "123" /\
  format_int_comma 50000 = str "50,000".
Proof. repeat split; reflexivity. Qed.

Example py_round_div_example :
  map (fun n => py_round_div n 200) [0; 99; 100; 101; 299; 300; 301; 500; 700]
  = [0; 0; 0; 1; 1; 2; 2; 2; 4].
Proof. reflexivity. Qed.

Example demo_question_is_answered :
  let r := main (Demo.env (Some (str "k")))
             (Demo.asking (str "What color is the sky?")) Demo.sky None in
  fst r = RerunException /\
  current_answer (session (snd r)) = str "The sky is blue." /\
  length (qa_history (session (snd r))) = 1%nat.
Proof. vm_compute. repeat split. Qed.

Example demo_upload_is_loaded :
  let f := {| name := str "sky.txt"; read := [x68; x69] |} in
  let r := main (Demo.env None) (Demo.uploading f) fresh_state None in
  fst r = Normal tt /\
  user_text (session (snd r)) = str "hi" /\
  file_name (session (snd r)) = str "sky.txt" /\
  file_uploaded (session (snd r)) = true.
Proof. vm_compute. repeat split. Qed.

Example demo_bad_upload_stops_the_run :
  let f := {| name := str "sky.txt"; read := [xff] |} in
  let r := main (Demo.env None) (Demo.uploading f) Demo.sky None in
  fst r = Uncaught Demo.not_utf8 /\
  session (snd r) = init_session_state Demo.sky.
Proof. vm_compute. repeat split. Qed.

(** ** Strings and numbers *)

Lemma truthy_true_iff (s : pystr) : truthy s = true <-> s <> [].
Proof. destruct s; cbn; split; congruence. Qed.

Lemma pystr_eqb_eq (a b : pystr) : pystr_eqb a b = true <-> a = b.
Proof.
  unfold pystr_eqb. destruct (list_eq_dec N.eq_dec a b); split; congruence.
Qed.

Lemma pystr_eqb_neq (a b : pystr) : pystr_eqb a b = false <-> a <> b.
Proof.
  unfold pystr_eqb. destruct (list_eq_dec N.eq_dec a b); split; congruence.
Qed.

Lemma len_nonneg (s : pystr) : 0 <= len s.
Proof. unfold len. lia. Qed.

Lemma word_count_nonneg (text : pystr) : 0 <= word_count text.
Proof. unfold word_count. lia. Qed.

(** [round(n / 200)] is a nearest integer to [n / 200], the even one of
    the two when [n / 200] lies half-way. *)
Lemma py_round_div_200_nearest (n : Z) :
  0 <= n ->
  let m := py_round_div n 200 in
  0 <= m /\ Z.abs (n - 200 * m) <= 100 /\
  (Z.abs (n - 200 * m) = 100 -> Z.even m = true).
Proof.
  intros Hn m. subst m. unfold py_round_div.
  pose proof (Z.div_mod n 200 ltac:(lia)) as Hdm.
  pose proof (Z.mod_pos_bound n 200 ltac:(lia)) as Hr.
  pose proof (Z.div_pos n 200 Hn ltac:(lia)) as Hq.
  destruct (Z.ltb_spec (2 * (n mod 200)) 200) as [Hlo | Hlo].
  - repeat split; try lia.
  - destruct (Z.ltb_spec 200 (2 * (n mod 200))) as [Hhi | Hhi].
    + repeat split; try lia.
    + destruct (Z.even (n / 200)) eqn:He.
      * repeat split; try lia. intros _. exact He.
      * repeat split; try lia. intros _.
        rewrite Z.even_add. rewrite He. reflexivity.
Qed.

Lemma py_round_div_200_le_ceiling (n : Z) :
  0 <= n -> py_round_div n 200 <= (n + 199) / 200.
Proof.
  intros Hn. unfold py_round_div.
  pose proof (Z.div_mod n 200 ltac:(lia)) as Hdm.
  pose proof (Z.mod_pos_bound n 200 ltac:(lia)) as Hr.
  assert (Hc : n / 200 <= (n + 199) / 200)
    by (apply Z.div_le_mono; lia).
  assert (Hc1 : 0 < n mod 200 -> n / 200 + 1 <= (n + 199) / 200).
  { intros Hpos. apply Z.div_le_lower_bound; lia. }
  destruct (Z.ltb_spec (2 * (n mod 200)) 200);
    [lia | destruct (Z.ltb_spec 200 (2 * (n mod 200)));
           [lia | destruct (Z.even (n / 200)); lia]].
Qed.

(** ** Running scripts *)

Lemma bind_normal {A B} (c : Script A) (k : A -> Script B) w a w' :
  c w = (Normal a, w') -> bind c k w = k a w'.
Proof. intros E. unfold bind. rewrite E. reflexivity. Qed.

Lemma bind_rerun {A B} (c : Script A) (k : A -> Script B) w w' :
  c w = (RerunException, w') -> bind c k w = (RerunException, w').
Proof. intros E. unfold bind. rewrite E. reflexivity. Qed.

Lemma bind_uncaught {A B} (c : Script A) (k : A -> Script B) w e w' :
  c w = (Uncaught e, w') -> bind c k w = (Uncaught e, w').
Proof. intros E. unfold bind. rewrite E. reflexivity. Qed.

Lemma emit_shown r w : emit r w = (Normal tt, shown [r] w).
Proof. reflexivity. Qed.

Lemma shown_nil w : shown [] w = w.
Proof. destruct w. unfold shown. cbn. rewrite app_nil_r. reflexivity. Qed.

Lemma shown_shown a b w : shown b (shown a w) = shown (a ++ b) w.
Proof. unfold shown. cbn. rewrite app_assoc. reflexivity. Qed.

Lemma for_each_emit {A} (f : A -> Render) (xs : list A) w :
  for_each xs (fun x => emit (f x)) w = (Normal tt, shown (map f xs) w).
Proof.
  revert w. induction xs as [| x xs IH]; intros w; cbn [for_each map].
  - unfold ret. rewrite shown_nil. reflexivity.
  - rewrite (bind_normal _ _ _ _ _ (emit_shown (f x) w)).
    rewrite IH, shown_shown. reflexivity.
Qed.

(** *** Scripts that only display *)

Lemma displays_emit r w : displays (emit r) w [r].
Proof. reflexivity. Qed.

Lemma displays_ret w : displays (ret tt) w [].
Proof. unfold displays, ret. rewrite shown_nil. reflexivity. Qed.

Lemma displays_seq (c1 c2 : Script unit) w e1 e2 :
  displays c1 w e1 -> displays c2 (shown e1 w) e2 ->
  displays (c1 ;; c2) w (e1 ++ e2).
Proof.
  unfold displays. intros H1 H2.
  rewrite (bind_normal _ _ _ _ _ H1), H2, shown_shown. reflexivity.
Qed.

Lemma displays_get (k : Session -> Script unit) w extra :
  displays (k (session w)) w extra -> displays (s <- get ;; k s) w extra.
Proof. unfold displays, bind, get. auto. Qed.

Lemma displays_for_each {A} (f : A -> Render) (xs : list A) w :
  displays (for_each xs (fun x => emit (f x))) w (map f xs).
Proof. apply for_each_emit. Qed.

Ltac display :=
  repeat first
    [ apply displays_emit
    | apply displays_ret
    | apply displays_for_each
    | eapply displays_seq ].

Lemma statistics_section_run w :
  exists extra,
    displays statistics_section w extra /\
    (In WarningLargeText extra <-> 50000 < len (user_text (session w))) /\
    (user_text (session w) <> [] ->
     In (Metric (str "Est. Reading Time")
           (format_int (reading_time (user_text (session w))) ++ str " min"))
        extra).
Proof.
  unfold statistics_section.
  destruct (truthy (user_text (session w))) eqn:Ht.
  - destruct (file_uploaded (session w)) eqn:Hup;
      destruct (large_text_limit <? len (user_text (session w))) eqn:Hbig;
      (eexists; split;
       [ apply displays_get; rewrite Ht, Hup, Hbig; cbn [when]; display |]);
      unfold large_text_limit in Hbig;
      (apply Z.ltb_lt in Hbig || apply Z.ltb_ge in Hbig);
      (split; [| intros _; cbn; auto 10]);
      cbn; split; intros H; try lia;
      intuition (try discriminate; auto).
  - exists []. split; [| split].
    + apply displays_get. rewrite Ht. apply displays_ret.
    + destruct (user_text (session w)); [| discriminate].
      cbn. split; [intros [] | lia].
    + intros Hne. apply truthy_true_iff in Hne. congruence.
Qed.

Lemma answer_section_run w :
  displays answer_section w
    (if truthy (current_answer (session w))
     then [Rule; Subheader 3; LatestAnswer (current_answer (session w))]
     else []).
Proof.
  unfold answer_section. apply displays_get.
  destruct (truthy (current_answer (session w))); cbn [when].
  - change [Rule; Subheader 3; LatestAnswer (current_answer (session w))]
      with ([Rule] ++ [Subheader 3]
            ++ [LatestAnswer (current_answer (session w))]).
    display.
  - apply displays_ret.
Qed.

Lemma history_section_run w :
  displays history_section w
    (match qa_history (session w) with
     | [] => []
     | _ :: _ =>
         [Rule; Subheader 4]
         ++ map (history_expander (length (qa_history (session w))))
              (enumerate (rev (slice_last 5 (qa_history (session w)))))
     end).
Proof.
  unfold history_section. apply displays_get.
  destruct (qa_history (session w)) as [| qa h] eqn:Hh; cbn [when].
  - apply displays_ret.
  - change ([Rule; Subheader 4] ++ ?l) with ([Rule] ++ [Subheader 4] ++ l).
    display.
Qed.

Lemma original_text_section_run w :
  displays original_text_section w
    (if truthy (user_text (session w))
     then [Rule; OriginalText (user_text (session w))]
     else []).
Proof.
  unfold original_text_section. apply displays_get.
  destruct (truthy (user_text (session w))); cbn [when].
  - change [Rule; OriginalText (user_text (session w))]
      with ([Rule] ++ [OriginalText (user_text (session w))]).
    display.
  - apply displays_ret.
Qed.

Lemma history_expander_no_warning total items :
  ~ In WarningLargeText (map (history_expander total) items).
Proof.
  rewrite in_map_iff. intros ((i & qa) & H & _). cbn in H. discriminate.
Qed.

(** What follows the question form only displays, and never the
    large-text warning. *)
Lemma closing_sections_run w :
  exists tail,
    displays (answer_section ;; history_section ;; original_text_section ;;
              emit Rule ;; emit Footer) w tail /\
    ~ In WarningLargeText tail.
Proof.
  eexists. split.
  - eapply displays_seq; [apply answer_section_run |].
    eapply displays_seq; [apply history_section_run |].
    eapply displays_seq; [apply original_text_section_run |].
    display.
  - cbn [session shown]. rewrite !in_app_iff.
    intros [H | [H | [H | H]]].
    + destruct (truthy (current_answer (session w))); cbn in H;
        intuition discriminate.
    + destruct (qa_history (session w)) eqn:Hh; [destruct H |].
      rewrite <- Hh in H. apply in_app_iff in H. destruct H as [H | H].
      * cbn in H. intuition discriminate.
      * exact (history_expander_no_warning _ _ H).
    + destruct (truthy (user_text (session w))); cbn in H;
        intuition discriminate.
    + cbn in H. intuition discriminate.
Qed.

(** *** The answer generation chain *)

(** One call of [generate_answer], in full: how it ends, what it leaves
    cached and which calls it makes. *)
Lemma generate_answer_run env context_text asked w :
  exists flow cache' made,
    generate_answer env context_text asked w =
    (flow,
     {| session := session w; model_cache := cache'; output := output w;
        calls := calls w ++ made |}) /\
    flow =
    match
      match model_cache w with
      | Some m => inr m
      | None =>
          ChatGoogleGenerativeAI env (GOOGLE_API_KEY env) temperature model_id
      end
    with
    | inl e => caught e
    | inr m =>
        match invoke m (format_prompt context_text asked) with
        | inl e => caught e
        | inr message =>
            match StrOutputParser env message with
            | inl e => caught e
            | inr result => Normal result
            end
        end
    end /\
    match model_cache w with
    | Some m =>
        cache' = Some m /\
        made = [InvokeModel (format_prompt context_text asked)]
    | None =>
        match ChatGoogleGenerativeAI env (GOOGLE_API_KEY env) temperature
                model_id with
        | inl _ =>
            cache' = None /\ made = [ConstructModel (GOOGLE_API_KEY env)]
        | inr m =>
            cache' = Some m /\
            made = [ConstructModel (GOOGLE_API_KEY env);
                    InvokeModel (format_prompt context_text asked)]
        end
    end.
Proof.
  unfold generate_answer, try_except, init_model, bind, get_cache, call,
    set_cache, lift, raise, ret, caught.
  cbn -[temperature model_id format_prompt error_prefix].
  destruct (model_cache w) as [m |] eqn:Hcache;
    cbn -[temperature model_id format_prompt error_prefix].
  - destruct (invoke m (format_prompt context_text asked))
      as [e | message];
      [| destruct (StrOutputParser env message) as [e | result]];
      cbn -[temperature model_id format_prompt error_prefix];
      try destruct (is_exception e);
      cbn -[temperature model_id format_prompt error_prefix];
      rewrite ?Hcache;
      eexists; exists (Some m), [InvokeModel (format_prompt context_text asked)];
      repeat split.
  - destruct (ChatGoogleGenerativeAI env (GOOGLE_API_KEY env) temperature
                model_id) as [e | m];
      cbn -[temperature model_id format_prompt error_prefix].
    + destruct (is_exception e);
        cbn -[temperature model_id format_prompt error_prefix];
        rewrite ?Hcache;
        eexists; exists None, [ConstructModel (GOOGLE_API_KEY env)];
        repeat split.
    + destruct (invoke m (format_prompt context_text asked))
        as [e | message];
        [| destruct (StrOutputParser env message) as [e | result]];
        cbn -[temperature model_id format_prompt error_prefix];
        try destruct (is_exception e);
        cbn -[temperature model_id format_prompt error_prefix];
        eexists;
        exists (Some m),
          [ConstructModel (GOOGLE_API_KEY env);
           InvokeModel (format_prompt context_text asked)];
        rewrite <- app_assoc; repeat split.
Qed.

(** [generate_answer] ends with a string, or with an exception that is
    not an [Exception]; it touches neither the session nor the page. *)
Lemma generate_answer_frame env context_text asked w :
  exists flow cache' made,
    generate_answer env context_text asked w =
    (flow,
     {| session := session w; model_cache := cache'; output := output w;
        calls := calls w ++ made |}) /\
    match flow with
    | Normal _ => True
    | RerunException => False
    | Uncaught e => is_exception e = false
    end.
Proof.
  destruct (generate_answer_run env context_text asked w)
    as (flow & cache' & made & Hrun & Hflow & _).
  exists flow, cache', made. split; [exact Hrun |].
  subst flow. unfold caught.
  destruct (model_cache w) as [m |];
    [| destruct (ChatGoogleGenerativeAI env (GOOGLE_API_KEY env) temperature
                   model_id) as [e | m];
       [destruct (is_exception e) eqn:He; auto |]];
    (destruct (invoke m (format_prompt context_text asked))
       as [e | message];
     [| destruct (StrOutputParser env message) as [e | result]; [| exact I]];
     destruct (is_exception e) eqn:He; auto).
Qed.

(** No client cached and a constructor that raises an [Exception]: the
    message becomes the answer. *)
Lemma generate_answer_constructor_raises env context_text asked w e :
  model_cache w = None ->
  ChatGoogleGenerativeAI env (GOOGLE_API_KEY env) temperature model_id
  = inl e ->
  is_exception e = true ->
  generate_answer env context_text asked w =
  (Normal (error_prefix ++ exn_str e),
   {| session := session w; model_cache := None; output := output w;
      calls := calls w ++ [ConstructModel (GOOGLE_API_KEY env)] |}).
Proof.
  intros Hcache Hraise Hclass.
  destruct (generate_answer_run env context_text asked w)
    as (flow & cache' & made & Hrun & Hflow & Hcalls).
  rewrite Hcache, Hraise in Hflow, Hcalls.
  unfold caught in Hflow. rewrite Hclass in Hflow.
  destruct Hcalls as (-> & ->). subst flow. exact Hrun.
Qed.

(** *** The sections that change the store *)

Lemma sidebar_run ui w :
  sidebar ui w =
  if clear_button ui then
    (RerunException,
     {| session := empty_session; model_cache := model_cache w;
        output := output w ++ [SidebarTitle; SidebarHelp];
        calls := calls w |})
  else (Normal tt, shown [SidebarTitle; SidebarHelp] w).
Proof.
  unfold sidebar, bind, emit, modify, rerun, when, ret, shown.
  destruct (clear_button ui); cbn; rewrite <- app_assoc; reflexivity.
Qed.

Lemma upload_section_run env ui w :
  upload_section env ui w =
  match file_uploader ui with
  | None => (Normal tt, w)
  | Some f =>
      match decode_utf8 env (read f) with
      | inl e => (Uncaught e, w)
      | inr file_content =>
          (Normal tt,
           {| session :=
                {| user_text := file_content;
                   qa_history := qa_history (session w);
                   current_answer := current_answer (session w);
                   file_uploaded := true;
                   file_name := name f |};
              model_cache := model_cache w;
              output := output w ++ [SuccessUploaded (name f)];
              calls := calls w |})
      end
  end.
Proof.
  unfold upload_section, bind, lift, raise, ret, modify, emit.
  destruct (file_uploader ui) as [f |]; [| reflexivity].
  destruct (decode_utf8 env (read f)); reflexivity.
Qed.

Lemma text_section_run ui w :
  text_section ui w =
  (Normal tt,
   {| session :=
        if pystr_eqb (text_area ui (user_text (session w)))
             (user_text (session w))
        then session w
        else {| user_text := text_area ui (user_text (session w));
                qa_history := qa_history (session w);
                current_answer := current_answer (session w);
                file_uploaded := false;
                file_name := [] |};
      model_cache := model_cache w;
      output := output w;
      calls := calls w |}).
Proof.
  unfold text_section, bind, get, modify, when, ret.
  destruct (pystr_eqb _ _); cbn; [destruct w |]; reflexivity.
Qed.

Lemma question_section_run env ui w :
  if submits ui (session w) then
    exists flow cache' made,
      generate_answer env (user_text (session w)) (text_input ui)
        (shown [Spinner] w)
      = (flow,
         {| session := session w; model_cache := cache';
            output := output w ++ [Spinner]; calls := calls w ++ made |}) /\
      match flow with
      | Normal reply =>
          question_section env ui w
          = (RerunException,
             {| session := recorded env ui reply (session w);
                model_cache := cache';
                output := output w ++ [Spinner];
                calls := calls w ++ made |})
      | Uncaught e =>
          is_exception e = false /\
          question_section env ui w
          = (Uncaught e,
             {| session := session w; model_cache := cache';
                output := output w ++ [Spinner];
                calls := calls w ++ made |})
      | RerunException => False
      end
  else
    exists extra,
      displays (question_section env ui) w extra /\
      ~ In WarningLargeText extra.
Proof.
  unfold submits, question_section.
  destruct (truthy (strip (user_text (session w)))) eqn:Htext; cbn [andb].
  - destruct (form_submit_button ui && truthy (strip (text_input ui)))
      eqn:Hsub.
    + destruct (generate_answer_frame env (user_text (session w))
                  (text_input ui) (shown [Spinner] w))
        as (flow & cache' & made & Hgen & Hflow).
      exists flow, cache', made. split; [exact Hgen |].
      destruct flow as [reply | | e]; [| exact Hflow | split; [exact Hflow |]];
        unfold bind at 1; unfold get; cbv beta iota zeta;
        rewrite ?Htext, ?Hsub; cbn [when];
        rewrite (bind_normal _ _ _ _ _ (emit_shown Spinner w)).
      * rewrite (bind_normal _ _ _ _ _ Hgen). reflexivity.
      * rewrite (bind_uncaught _ _ _ _ _ Hgen). reflexivity.
    + exists []. split; [| intros []].
      apply displays_get. rewrite ?Htext, ?Hsub. apply displays_ret.
  - exists [InfoEnterText]. split.
    + apply displays_get. rewrite ?Htext. apply displays_emit.
    + cbn. intuition discriminate.
Qed.

(** *** One run of the page, case by case *)

Lemma page_run env ui w :
  if clear_button ui then
    page env ui w =
    (RerunException,
     {| session := empty_session; model_cache := model_cache w;
        output := output w ++ [SidebarTitle; SidebarHelp];
        calls := calls w |})
  else
    match upload_section env ui (shown page_head w) with
    | (Uncaught e, w1) => page env ui w = (Uncaught e, w1)
    | (RerunException, _) => False
    | (Normal _, w1) =>
        let w2 := snd (text_section ui w1) in
        exists stats,
          displays statistics_section w2 stats /\
          (In WarningLargeText stats <->
           50000 < len (user_text (session w2))) /\
          let w3 := shown (stats ++ [Rule; Subheader 2]) w2 in
          if submits ui (session w2) then
            exists flow cache' made,
              generate_answer env (user_text (session w2)) (text_input ui)
                (shown [Spinner] w3)
              = (flow,
                 {| session := session w2; model_cache := cache';
                    output := output w3 ++ [Spinner];
                    calls := calls w2 ++ made |}) /\
              match flow with
              | Normal reply =>
                  page env ui w =
                  (RerunException,
                   {| session := recorded env ui reply (session w2);
                      model_cache := cache';
                      output := output w3 ++ [Spinner];
                      calls := calls w2 ++ made |})
              | Uncaught e =>
                  is_exception e = false /\
                  page env ui w =
                  (Uncaught e,
                   {| session := session w2; model_cache := cache';
                      output := output w3 ++ [Spinner];
                      calls := calls w2 ++ made |})
              | RerunException => False
              end
          else
            exists tail,
              page env ui w = (Normal tt, shown tail w3) /\
              ~ In WarningLargeText tail
    end.
Proof.
  unfold page.
  pose proof (sidebar_run ui w) as Hside.
  destruct (clear_button ui).
  - rewrite (bind_rerun _ _ _ _ Hside). reflexivity.
  - rewrite (bind_normal _ _ _ _ _ Hside).
    rewrite (bind_normal _ _ _ _ _ (emit_shown _ _)), shown_shown.
    rewrite (bind_normal _ _ _ _ _ (emit_shown _ _)), shown_shown.
    rewrite (bind_normal _ _ _ _ _ (emit_shown _ _)), shown_shown.
    change (([SidebarTitle; SidebarHelp] ++ [PageTitle]) ++ [Rule]
            ++ [Subheader 1]) with page_head.
    destruct (upload_section env ui (shown page_head w))
      as [[[] | | e] w1] eqn:Hup.
    + rewrite (bind_normal _ _ _ _ _ Hup).
      pose proof (text_section_run ui w1) as Htext.
      rewrite (bind_normal _ _ _ _ _ Htext).
      replace (snd (text_section ui w1)) with
        {| session :=
             if pystr_eqb (text_area ui (user_text (session w1)))
                  (user_text (session w1))
             then session w1
             else {| user_text := text_area ui (user_text (session w1));
                     qa_history := qa_history (session w1);
                     current_answer := current_answer (session w1);
                     file_uploaded := false;
                     file_name := [] |};
           model_cache := model_cache w1;
           output := output w1;
           calls := calls w1 |} by (rewrite Htext; reflexivity).
      match goal with |- context [bind statistics_section _ ?w2] =>
        set (W2 := w2) end.
      destruct (statistics_section_run W2) as (stats & Hstats & Hwarn & _).
      exists stats. split; [exact Hstats |]. split; [exact Hwarn |].
      cbv zeta.
      set (W3 := shown (stats ++ [Rule; Subheader 2]) W2).
      rewrite (bind_normal _ _ _ _ _ Hstats).
      rewrite (bind_normal _ _ _ _ _ (emit_shown _ _)).
      rewrite (bind_normal _ _ _ _ _ (emit_shown _ _)).
      rewrite (shown_shown [Rule] [Subheader 2] (shown stats W2)).
      rewrite (shown_shown stats ([Rule] ++ [Subheader 2]) W2).
      change (shown (stats ++ [Rule] ++ [Subheader 2]) W2) with W3.
      pose proof (question_section_run env ui W3) as Hq.
      change (session W3) with (session W2) in Hq.
      change (calls W3) with (calls W2) in Hq.
      destruct (submits ui (session W2)).
      * destruct Hq as (flow & cache' & made & Hgen & Hq).
        exists flow, cache', made. split; [exact Hgen |].
        destruct flow as [reply | | e]; [| exact Hq |].
        -- rewrite (bind_rerun _ _ _ _ Hq). reflexivity.
        -- destruct Hq as (Hclass & Hq). split; [exact Hclass |].
           rewrite (bind_uncaught _ _ _ _ _ Hq). reflexivity.
      * destruct Hq as (extra & Hq & Hextra).
        rewrite (bind_normal _ _ _ _ _ Hq).
        destruct (closing_sections_run (shown extra W3))
          as (tail & Htail & Hno).
        exists (extra ++ tail). split.
        -- rewrite Htail, shown_shown. reflexivity.
        -- rewrite in_app_iff. tauto.
    + rewrite upload_section_run in Hup.
      destruct (file_uploader ui) as [f |]; [| discriminate].
      destruct (decode_utf8 env (read f)); discriminate.
    + rewrite (bind_uncaught _ _ _ _ _ Hup). reflexivity.
Qed.

(** ** The answer generation chain turns errors into text *)

(** C1.  For every context and question, when the errors the client
    constructor, the model call and the parser raise are instances of
    [Exception], [generate_answer] returns a string and lets no exception
    escape: the parsed reply when the client (cached, or built now), the
    model call and the parser all succeed, and ["Error generating
    answer: "] followed by [str(e)] as soon as one of them raises [e].
    The call changes neither the session nor what is displayed. *)
Theorem generate_answer_returns_string env context_text asked w :
  let client :=
    match model_cache w with
    | Some m => inr m
    | None =>
        ChatGoogleGenerativeAI env (GOOGLE_API_KEY env) temperature model_id
    end in
  let prompt := format_prompt context_text asked in
  (forall e, client = inl e -> is_exception e = true) ->
  (forall m e, client = inr m -> invoke m prompt = inl e ->
               is_exception e = true) ->
  (forall m message e,
     client = inr m -> invoke m prompt = inr message ->
     StrOutputParser env message = inl e -> is_exception e = true) ->
  exists reply w',
    generate_answer env context_text asked w = (Normal reply, w') /\
    session w' = session w /\ output w' = output w /\
    match client with
    | inl e => reply = error_prefix ++ exn_str e
    | inr m =>
        match invoke m prompt with
        | inl e => reply = error_prefix ++ exn_str e
        | inr message =>
            match StrOutputParser env message with
            | inl e => reply = error_prefix ++ exn_str e
            | inr result => reply = result
            end
        end
    end.
Proof.
  intros client prompt Hctor Hcall Hparse.
  destruct (generate_answer_run env context_text asked w)
    as (flow & cache' & made & Hrun & Hflow & _).
  fold client prompt in Hflow. unfold caught in Hflow.
  destruct client as [e | m] eqn:Hclient.
  - rewrite (Hctor e eq_refl) in Hflow. subst flow.
    eexists; eexists. split; [exact Hrun |]. repeat split.
  - destruct (invoke m prompt) as [e | message] eqn:Hinvoke.
    + rewrite (Hcall m e eq_refl Hinvoke) in Hflow. subst flow.
      eexists; eexists. split; [exact Hrun |]. repeat split.
    + destruct (StrOutputParser env message) as [e | result] eqn:Hparsed.
      * rewrite (Hparse m message e eq_refl Hinvoke Hparsed) in Hflow.
        subst flow.
        eexists; eexists. split; [exact Hrun |]. repeat split.
      * subst flow.
        eexists; eexists. split; [exact Hrun |]. repeat split.
Qed.

Lemma generate_answer_returns_string_witness :
  let w := {| session := init_session_state Demo.sky;
              model_cache := Some Demo.failing_model;
              output := []; calls := [] |} in
  is_exception Demo.quota_exceeded = true /\
  fst (generate_answer (Demo.env None) (str "The sky is blue.")
         (str "What color is the sky?") w)
  = Normal (str "Error generating answer: quota exceeded").
Proof.
  intros w. split; [reflexivity |].
  destruct (generate_answer_returns_string (Demo.env None)
              (str "The sky is blue.") (str "What color is the sky?") w)
    as (reply & w' & Hrun & _ & _ & Hreply).
  - intros e H. discriminate H.
  - intros m e Hm Hinvoke. injection Hm as <-.
    injection Hinvoke as <-. reflexivity.
  - intros m message e Hm Hinvoke. injection Hm as <-. discriminate Hinvoke.
  - rewrite Hrun. cbn in Hreply. rewrite Hreply. reflexivity.
Defined.

(** An exception that is not an [Exception] is not turned into text: it
    leaves [generate_answer] as it was raised. *)
Lemma generate_answer_lets_other_exceptions_through
    env context_text asked w m e :
  model_cache w = Some m ->
  invoke m (format_prompt context_text asked) = inl e ->
  is_exception e = false ->
  fst (generate_answer env context_text asked w) = Uncaught e.
Proof.
  intros Hcache Hinvoke Hclass.
  destruct (generate_answer_run env context_text asked w)
    as (flow & cache' & made & Hrun & Hflow & _).
  rewrite Hcache, Hinvoke in Hflow. unfold caught in Hflow.
  rewrite Hclass in Hflow. rewrite Hrun. exact Hflow.
Qed.

Example keyboard_interrupt_leaves_generate_answer :
  fst (generate_answer (Demo.env None) (str "The sky is blue.")
         (str "What color is the sky?")
         {| session := init_session_state Demo.sky;
            model_cache := Some Demo.interrupted_model;
            output := []; calls := [] |})
  = Uncaught Demo.keyboard_interrupt.
Proof. reflexivity. Qed.

(** ** Reading time *)

(** C2, as stated, fails: a text of 201 words is shown ["1 min"], where
    201 / 200 rounded up is 2. *)
Lemma reading_time_not_rounded_up :
  let text := Demo.words 201 in
  let w := {| session := set_user_text text empty_session;
              model_cache := None; output := []; calls := [] |} in
  text <> [] /\
  word_count text = 201 /\
  In (Metric (str "Est. Reading Time") (str "1 min"))
     (output (snd (statistics_section w))) /\
  rounded_up_minutes (word_count text) = 2 /\
  reading_time text <> rounded_up_minutes (word_count text).
Proof.
  vm_compute. repeat split; try discriminate.
  do 4 right. left. reflexivity.
Qed.

(** C2, amended.  For every non-empty context text, the statistics show
    the reading time [max(1, round(words / 200))]: one minute below 300
    words, and from 300 words on a whole number nearest to [words / 200],
    the even one when [words / 200] lies half-way between two.  It never
    exceeds the rounded-up value. *)
Theorem reading_time_rounds_to_nearest w :
  user_text (session w) <> [] ->
  let text := user_text (session w) in
  let minutes := reading_time text in
  In (Metric (str "Est. Reading Time") (format_int minutes ++ str " min"))
     (output (snd (statistics_section w))) /\
  1 <= minutes <= rounded_up_minutes (word_count text) /\
  (word_count text < 300 -> minutes = 1) /\
  (300 <= word_count text ->
   Z.abs (word_count text - 200 * minutes) <= 100 /\
   (Z.abs (word_count text - 200 * minutes) = 100 -> Z.even minutes = true)).
Proof.
  intros Hne text minutes.
  destruct (statistics_section_run w) as (extra & Hrun & _ & Hshown).
  split.
  - rewrite Hrun. cbn [snd shown output]. apply in_app_iff. right.
    apply Hshown, Hne.
  - subst minutes. unfold reading_time, rounded_up_minutes.
    pose proof (word_count_nonneg text) as Hwc.
    pose proof (py_round_div_200_nearest (word_count text) Hwc)
      as (Hpos & Hnear & Heven).
    pose proof (py_round_div_200_le_ceiling (word_count text) Hwc) as Hle.
    cbv zeta in Hnear, Heven.
    split; [lia |]. split.
    + intros Hsmall. lia.
    + intros Hbig.
      replace (Z.max 1 (py_round_div (word_count text) 200))
        with (py_round_div (word_count text) 200) by lia.
      split; assumption.
Qed.

Lemma reading_time_rounds_to_nearest_witness :
  let w := {| session := set_user_text (Demo.words 500) empty_session;
              model_cache := None; output := []; calls := [] |} in
  user_text (session w) <> [] /\
  In (Metric (str "Est. Reading Time") (str "2 min"))
     (output (snd (statistics_section w))).
Proof.
  intros w.
  assert (Hne : user_text (session w) <> []) by (vm_compute; discriminate).
  split; [exact Hne |].
  pose proof (reading_time_rounds_to_nearest w Hne) as (Hshown & _).
  assert (Hfmt : format_int (reading_time (user_text (session w)))
                 ++ str " min" = str "2 min") by (vm_compute; reflexivity).
  rewrite Hfmt in Hshown. exact Hshown.
Defined.

(** ** Runs of the page *)

Lemma main_unfold env ui raw cache :
  main env ui raw cache =
  page env ui {| session := init_session_state raw; model_cache := cache;
                 output := []; calls := [] |}.
Proof. reflexivity. Qed.

(** Where the upload section leaves the world. *)
Lemma upload_section_frame env ui w r w1 :
  upload_section env ui w = (r, w1) ->
  qa_history (session w1) = qa_history (session w) /\
  current_answer (session w1) = current_answer (session w) /\
  model_cache w1 = model_cache w /\
  calls w1 = calls w /\
  (forall x, In x (output w1) ->
     In x (output w) \/ exists f, x = SuccessUploaded f).
Proof.
  rewrite upload_section_run.
  destruct (file_uploader ui) as [f |].
  - destruct (decode_utf8 env (read f)); intros H; inversion H; subst;
      cbn; repeat split; auto.
    intros x Hx. apply in_app_iff in Hx. destruct Hx as [Hx | [Hx | []]];
      eauto.
  - intros H; inversion H; subst. repeat split; auto.
Qed.

Lemma text_section_frame ui w :
  let w2 := snd (text_section ui w) in
  qa_history (session w2) = qa_history (session w) /\
  current_answer (session w2) = current_answer (session w) /\
  model_cache w2 = model_cache w /\
  calls w2 = calls w /\
  output w2 = output w.
Proof.
  rewrite text_section_run. cbn.
  destruct (pystr_eqb _ _); repeat split.
Qed.

(** ** Clearing *)

(** C3.  A run in which the clear button was pressed ends, by a rerun
    request, with every session field at its empty default: context text,
    history, latest answer, file name and the file-uploaded flag.  The run
    displays the two fixed sidebar elements and nothing else, and calls
    nothing: no element is drawn from a store that is reset in part. *)
Theorem clear_resets_every_field env ui raw cache :
  clear_button ui = true ->
  let r := main env ui raw cache in
  fst r = RerunException /\
  user_text (session (snd r)) = [] /\
  qa_history (session (snd r)) = [] /\
  current_answer (session (snd r)) = [] /\
  file_name (session (snd r)) = [] /\
  file_uploaded (session (snd r)) = false /\
  output (snd r) = [SidebarTitle; SidebarHelp] /\
  calls (snd r) = [] /\
  init_session_state (stored (session (snd r))) = empty_session.
Proof.
  intros Hclear r. subst r. rewrite main_unfold.
  pose proof (page_run env ui
                {| session := init_session_state raw; model_cache := cache;
                   output := []; calls := [] |}) as Hrun.
  rewrite Hclear in Hrun. rewrite Hrun. cbn. repeat split.
Qed.

Lemma clear_resets_every_field_witness :
  clear_button Demo.clearing = true /\
  session (snd (main (Demo.env None) Demo.clearing Demo.sky None))
  = empty_session.
Proof.
  split; [reflexivity |].
  pose proof (clear_resets_every_field (Demo.env None) Demo.clearing
                Demo.sky None eq_refl) as H.
  cbv zeta in H.
  destruct H as (_ & Ht & Hh & Ha & Hn & Hu & _).
  destruct (session (snd (main (Demo.env None) Demo.clearing Demo.sky None))).
  cbn in *. subst. reflexivity.
Defined.

(** How a run without the clear button ends: on a file that does not
    decode, with the reply to a submitted question recorded, on an
    exception that is not an [Exception] and left [generate_answer], or
    by drawing the page to its end. *)
Lemma page_outcome env ui w :
  clear_button ui = false ->
  let r := page env ui w in
  (exists f e,
     file_uploader ui = Some f /\ decode_utf8 env (read f) = inl e /\
     fst r = Uncaught e /\ session (snd r) = session w /\
     calls (snd r) = calls w /\ model_cache (snd r) = model_cache w)
  \/
  (exists w1,
     upload_section env ui (shown page_head w) = (Normal tt, w1) /\
     let s2 := session (snd (text_section ui w1)) in
     if submits ui s2 then
       exists flow cache' made W,
         model_cache W = model_cache w /\ calls W = calls w /\
         generate_answer env (user_text s2) (text_input ui) W
         = (flow,
            {| session := session W; model_cache := cache';
               output := output W; calls := calls W ++ made |}) /\
         calls (snd r) = calls w ++ made /\
         model_cache (snd r) = cache' /\
         match flow with
         | Normal reply =>
             fst r = RerunException /\
             session (snd r) = recorded env ui reply s2
         | Uncaught e =>
             is_exception e = false /\
             fst r = Uncaught e /\ session (snd r) = s2
         | RerunException => False
         end
     else
       fst r = Normal tt /\ session (snd r) = s2 /\
       calls (snd r) = calls w /\ model_cache (snd r) = model_cache w).
Proof.
  intros Hclear r. subst r.
  pose proof (page_run env ui w) as Hrun. rewrite Hclear in Hrun.
  destruct (upload_section env ui (shown page_head w))
    as [[[] | | e] w1] eqn:Hup.
  - right. exists w1. split; [reflexivity |].
    destruct (upload_section_frame _ _ _ _ _ Hup)
      as (_ & _ & Hcache1 & Hcalls1 & _).
    destruct (text_section_frame ui w1) as (_ & _ & Hcache2 & Hcalls2 & _).
    cbv zeta in Hrun, Hcache2, Hcalls2 |- *.
    destruct Hrun as (stats & _ & _ & Hrun).
    destruct (submits ui (session (snd (text_section ui w1)))).
    + destruct Hrun as (flow & cache' & made & Hgen & Hpage).
      exists flow, cache', made.
      exists (shown [Spinner]
                (shown (stats ++ [Rule; Subheader 2])
                   (snd (text_section ui w1)))).
      split; [| split; [| split; [exact Hgen |]]].
      * unfold shown. cbn [model_cache].
        rewrite Hcache2, Hcache1. reflexivity.
      * unfold shown. cbn [calls]. rewrite Hcalls2, Hcalls1. reflexivity.
      * destruct flow as [reply | | e]; [| destruct Hpage |].
        -- rewrite Hpage. cbn [fst snd session calls model_cache].
           rewrite Hcalls2, Hcalls1. repeat split.
        -- destruct Hpage as (Hclass & Hpage).
           rewrite Hpage. cbn [fst snd session calls model_cache].
           rewrite Hcalls2, Hcalls1. repeat split. exact Hclass.
    + destruct Hrun as (tail & Hpage & _).
      rewrite Hpage. unfold shown. cbn [fst snd session calls model_cache].
      rewrite Hcalls2, Hcalls1, Hcache2, Hcache1.
      repeat split.
  - destruct Hrun.
  - left. rewrite Hrun.
    rewrite upload_section_run in Hup.
    destruct (file_uploader ui) as [f |]; [| discriminate].
    exists f.
    destruct (decode_utf8 env (read f)) as [e' |]; [| discriminate].
    inversion Hup; subst. exists e. repeat split.
Qed.

(** The cases of a submission in [page_outcome]: the reply was recorded,
    or an exception left [generate_answer]. *)
Ltac submission Hend :=
  let flow := fresh "flow" in
  destruct Hend as (flow & cache' & made & W & HWcache & HWcalls & Hgen
                    & Hcalls & Hcache & Hend);
  destruct flow as [reply | | escaped];
  [ destruct Hend as (Hflow & Hs)
  | destruct Hend
  | destruct Hend as (Hescaped & Hflow & Hs) ].

(** ** Manual entry *)

(** C4.  In a run without the clear button, let [stored_text] be the
    context text in the store when the text area is drawn: the decoded
    upload when a file is in the uploader, what the session held
    otherwise.  When the text area returns a text that differs from it,
    the run ends with that text as the context text, an empty file name
    and the file-uploaded flag off. *)
Theorem manual_edit_overwrites env ui raw cache stored_text :
  clear_button ui = false ->
  match file_uploader ui with
  | None => user_text (init_session_state raw) = stored_text
  | Some f => decode_utf8 env (read f) = inr stored_text
  end ->
  text_area ui stored_text <> stored_text ->
  let s' := session (snd (main env ui raw cache)) in
  user_text s' = text_area ui stored_text /\
  file_name s' = [] /\
  file_uploaded s' = false.
Proof.
  intros Hclear Hstored Hdiff s'. subst s'. rewrite main_unfold.
  set (w0 := {| session := init_session_state raw; model_cache := cache;
                output := []; calls := [] |}).
  destruct (page_outcome env ui w0 Hclear)
    as [(f & e & Hf & Hdec & _) | (w1 & Hup & Hend)].
  - rewrite Hf, Hdec in Hstored. discriminate.
  - assert (Htext : user_text (session w1) = stored_text).
    { rewrite upload_section_run in Hup.
      destruct (file_uploader ui) as [f |].
      - rewrite Hstored in Hup. injection Hup as <-. reflexivity.
      - injection Hup as <-. exact Hstored. }
    cbv zeta in Hend. rewrite text_section_run in Hend.
    cbn [snd session] in Hend. rewrite Htext in Hend.
    apply pystr_eqb_neq in Hdiff. rewrite Hdiff in Hend.
    match type of Hend with if ?b then _ else _ => destruct b end.
    + submission Hend; rewrite Hs; repeat split.
    + destruct Hend as (_ & Hs & _). rewrite Hs. repeat split.
Qed.

Lemma manual_edit_overwrites_witness :
  let ui := Demo.typing (str "Grass is green.") in
  let s' := session (snd (main (Demo.env None) ui Demo.sky None)) in
  text_area ui (str "The sky is blue.") <> str "The sky is blue." /\
  user_text s' = str "Grass is green." /\
  file_name s' = [] /\ file_uploaded s' = false.
Proof.
  intros ui s'.
  assert (Hdiff : text_area ui (str "The sky is blue.")
                  <> str "The sky is blue.") by (vm_compute; discriminate).
  split; [exact Hdiff |].
  exact (manual_edit_overwrites (Demo.env None) ui Demo.sky None
           (str "The sky is blue.") eq_refl eq_refl Hdiff).
Defined.

(** ** Blank questions *)

Lemma blank_question_never_submits ui s :
  strip (text_input ui) = [] -> submits ui s = false.
Proof.
  intros Hblank. unfold submits. rewrite Hblank. cbn.
  rewrite andb_false_r, andb_false_r. reflexivity.
Qed.

(** C5.  When the question is empty once stripped of whitespace, the run
    makes no call to the model service, whether or not the button was
    pressed, and appends nothing: the history is the one the run started
    with, or the empty one when the clear button was pressed; the latest
    answer likewise, and the cached client is untouched. *)
Theorem blank_question_is_noop env ui raw cache :
  strip (text_input ui) = [] ->
  let r := main env ui raw cache in
  calls (snd r) = [] /\
  model_cache (snd r) = cache /\
  qa_history (session (snd r))
  = (if clear_button ui then [] else qa_history (init_session_state raw)) /\
  current_answer (session (snd r))
  = (if clear_button ui then []
     else current_answer (init_session_state raw)).
Proof.
  intros Hblank r. subst r. rewrite main_unfold.
  set (w0 := {| session := init_session_state raw; model_cache := cache;
                output := []; calls := [] |}).
  destruct (clear_button ui) eqn:Hclear.
  - pose proof (page_run env ui w0) as Hrun. rewrite Hclear in Hrun.
    rewrite Hrun. repeat split.
  - destruct (page_outcome env ui w0 Hclear)
      as [(f & e & _ & _ & _ & Hs & Hcalls & Hcache)
         | (w1 & Hup & Hend)].
    + rewrite Hs, Hcalls, Hcache. repeat split.
    + cbv zeta in Hend.
      rewrite (blank_question_never_submits ui _ Hblank) in Hend.
      destruct Hend as (_ & Hs & Hcalls & Hcache).
      rewrite Hs, Hcalls, Hcache.
      destruct (upload_section_frame _ _ _ _ _ Hup) as (Hh1 & Ha1 & _).
      destruct (text_section_frame ui w1) as (Hh2 & Ha2 & _).
      cbv zeta in Hh2, Ha2. rewrite Hh2, Ha2, Hh1, Ha1. repeat split.
Qed.

Lemma blank_question_is_noop_witness :
  let ui := Demo.asking (str "   ") in
  let r := main (Demo.env (Some (str "k"))) ui Demo.sky None in
  strip (text_input ui) = [] /\
  form_submit_button ui = true /\
  calls (snd r) = [] /\ qa_history (session (snd r)) = [].
Proof.
  intros ui r.
  assert (Hblank : strip (text_input ui) = []) by reflexivity.
  split; [exact Hblank |]. split; [reflexivity |].
  destruct (blank_question_is_noop (Demo.env (Some (str "k"))) ui Demo.sky
              None Hblank) as (Hcalls & _ & Hh & _).
  split; [exact Hcalls | exact Hh].
Defined.

(** ** The large-text warning *)

Lemma page_head_no_warning : ~ In WarningLargeText page_head.
Proof. cbn. intuition discriminate. Qed.

(** C6.  In every run that does not stop on an undecodable upload, the
    large-text warning is displayed exactly when the context text the run
    leaves in the store is longer than 50,000 characters: it is displayed
    at length 60,000 and not at length 50,000. *)
Theorem large_text_warning_threshold env ui raw cache :
  let r := main env ui raw cache in
  (forall e, fst r <> Uncaught e) ->
  let text := user_text (session (snd r)) in
  (In WarningLargeText (output (snd r)) <-> 50000 < len text) /\
  (len text = 60000 -> In WarningLargeText (output (snd r))) /\
  (len text = 50000 -> ~ In WarningLargeText (output (snd r))).
Proof.
  intros r Hok text.
  assert (Hiff : In WarningLargeText (output (snd r)) <-> 50000 < len text).
  { subst text. revert Hok. subst r. rewrite main_unfold.
    set (w0 := {| session := init_session_state raw; model_cache := cache;
                  output := []; calls := [] |}).
    intros Hok.
    pose proof (page_run env ui w0) as Hrun.
    destruct (clear_button ui).
    - rewrite Hrun. cbn. split; [intuition discriminate | lia].
    - destruct (upload_section env ui (shown page_head w0))
        as [[[] | | e] w1] eqn:Hup.
      + destruct (upload_section_frame _ _ _ _ _ Hup)
          as (_ & _ & _ & _ & Hout1).
        destruct (text_section_frame ui w1) as (_ & _ & _ & _ & Hout2).
        cbv zeta in Hrun, Hout2.
        assert (Hclean : ~ In WarningLargeText
                             (output (snd (text_section ui w1)))).
        { rewrite Hout2. intros Hin.
          destruct (Hout1 _ Hin) as [Hin0 | (f & Hf)]; [| discriminate].
          cbn in Hin0. intuition discriminate. }
        destruct Hrun as (stats & _ & Hwarn & Hrun).
        destruct (submits ui (session (snd (text_section ui w1)))).
        * destruct Hrun as (flow & cache' & made & _ & Hpage).
          destruct flow as [reply | | e]; [| destruct Hpage |].
          -- rewrite Hpage. cbn [fst snd session output shown recorded
                                   set_current_answer set_qa_history
                                   user_text].
             rewrite <- Hwarn, !in_app_iff. cbn. intuition discriminate.
          -- destruct Hpage as (_ & Hpage). exfalso. apply (Hok e).
             rewrite Hpage. reflexivity.
        * destruct Hrun as (tail & Hpage & Htail).
          rewrite Hpage. cbn [fst snd session output shown].
          rewrite <- Hwarn, !in_app_iff. cbn. intuition discriminate.
      + destruct Hrun.
      + exfalso. apply (Hok e). rewrite Hrun. reflexivity. }
  split; [exact Hiff |]. split.
  - intros Hlen. apply Hiff. lia.
  - intros Hlen Hin. apply Hiff in Hin. lia.
Qed.

Lemma large_text_warning_threshold_witness :
  (forall e, fst (main (Demo.env None) Demo.idle Demo.sky None)
             <> Uncaught e) /\
  len (user_text
         (session (snd (main (Demo.env None) Demo.idle Demo.sky None))))
  = 16 /\
  ~ In WarningLargeText
      (output (snd (main (Demo.env None) Demo.idle Demo.sky None))).
Proof.
  assert (Hok : forall e, fst (main (Demo.env None) Demo.idle Demo.sky None)
                          <> Uncaught e)
    by (intros e; vm_compute; discriminate).
  assert (Hlen : len (user_text
                        (session (snd (main (Demo.env None) Demo.idle
                                         Demo.sky None)))) = 16)
    by (vm_compute; reflexivity).
  split; [exact Hok |]. split; [exact Hlen |].
  pose proof (large_text_warning_threshold (Demo.env None) Demo.idle
                Demo.sky None Hok) as H.
  cbv zeta in H. destruct H as (Hiff & _).
  intros Hin. pose proof (proj1 Hiff Hin) as Hbig.
  rewrite Hlen in Hbig. lia.
Defined.

(** ** The history panel *)

Lemma enumerate_from_nth_error {A} (xs : list A) (start k : nat) :
  nth_error (combine (seq start (length xs)) xs) k
  = option_map (fun x => ((start + k)%nat, x)) (nth_error xs k).
Proof.
  revert start k. induction xs as [| x xs IH]; intros start k.
  - destruct k; reflexivity.
  - destruct k as [| k]; cbn [length seq combine nth_error option_map].
    + rewrite Nat.add_0_r. reflexivity.
    + rewrite IH. rewrite Nat.add_succ_r. reflexivity.
Qed.

Lemma enumerate_nth_error {A} (xs : list A) (k : nat) :
  nth_error (enumerate xs) k = option_map (fun x => (k, x)) (nth_error xs k).
Proof. unfold enumerate. apply enumerate_from_nth_error. Qed.

Lemma enumerate_length {A} (xs : list A) : length (enumerate xs) = length xs.
Proof.
  unfold enumerate. rewrite length_combine, length_seq. apply Nat.min_id.
Qed.

Lemma slice_last_length {A} (n : nat) (xs : list A) :
  length (slice_last n xs) = Nat.min n (length xs).
Proof. unfold slice_last. rewrite length_skipn. lia. Qed.

(** Position [k] of the reversed tail is position [len - 1 - k] of the
    list. *)
Lemma rev_slice_last_nth_error {A} (n : nat) (xs : list A) (k : nat) :
  (k < Nat.min n (length xs))%nat ->
  nth_error (rev (slice_last n xs)) k = nth_error xs (length xs - 1 - k).
Proof.
  intros Hk. rewrite nth_error_rev, slice_last_length.
  destruct (Nat.ltb_spec k (Nat.min n (length xs))) as [_ | Hge]; [| lia].
  unfold slice_last. rewrite nth_error_skipn. f_equal. lia.
Qed.

(** C7.  The history panel holds [min(5, n)] expanders for a history of
    [n] entries; the one at position [k] shows entry [n - 1 - k] of the
    history, so the newest comes first and only the last five appear; its
    label is ["Q"], the entry's number [n - k], [": "], the first 50
    characters of the question, then ["... ("], the time and [")"]. *)
Theorem history_panel_last_five w :
  let h := qa_history (session w) in
  let n := length h in
  exists panel,
    output (snd (history_section w))
    = output w ++ (match h with [] => [] | _ :: _ => [Rule; Subheader 4] end)
      ++ panel /\
    length panel = Nat.min 5 n /\
    forall k, (k < Nat.min 5 n)%nat ->
      exists qa,
        nth_error h (n - 1 - k) = Some qa /\
        nth_error panel k
        = Some (Expander
                  (str "Q" ++ format_int (Z.of_nat n - Z.of_nat k)
                   ++ str ": " ++ firstn 50 (question qa)
                   ++ str "... (" ++ timestamp qa ++ str ")")
                  [str "**Question:**"; question qa;
                   str "**Answer:**"; answer qa]).
Proof.
  intros h n.
  exists (map (history_expander n) (enumerate (rev (slice_last 5 h)))).
  split; [| split].
  - rewrite (history_section_run w). cbn [snd shown output]. fold h n.
    destruct h as [| qa h']; [| reflexivity].
    cbn. reflexivity.
  - rewrite length_map, enumerate_length, length_rev, slice_last_length.
    reflexivity.
  - intros k Hk.
    destruct (nth_error h (n - 1 - k)) as [qa |] eqn:Hqa.
    + exists qa. split; [reflexivity |].
      rewrite nth_error_map, enumerate_nth_error.
      rewrite (rev_slice_last_nth_error 5 h k Hk). fold n. rewrite Hqa.
      reflexivity.
    + apply nth_error_None in Hqa. fold n in Hqa. lia.
Qed.

Example history_panel_of_six :
  let entry q := {| question := str q; answer := str "yes";
                    timestamp := str "10:00:00" |} in
  let w := {| session := set_qa_history
                           (map entry ["one"; "two"; "three"; "four"; "five";
                                       "six"]%string) empty_session;
              model_cache := None; output := []; calls := [] |} in
  map (fun r => match r with Expander label _ => label | _ => [] end)
    (output (snd (history_section w)))
  = [[]; [];
     str "Q6: six... (10:00:00)"; str "Q5: five... (10:00:00)";
     str "Q4: four... (10:00:00)"; str "Q3: three... (10:00:00)";
     str "Q2: two... (10:00:00)"].
Proof. vm_compute. reflexivity. Qed.

(** ** History is a log *)

Lemma submits_true_iff ui s :
  submits ui s = true <->
  strip (user_text s) <> [] /\ form_submit_button ui = true /\
  strip (text_input ui) <> [].
Proof.
  unfold submits. rewrite !andb_true_iff, !truthy_true_iff. tauto.
Qed.

Lemma submits_pressed ui s : submits ui s = true -> form_submit_button ui = true.
Proof.
  unfold submits. intros H.
  apply andb_true_iff in H. destruct H as (_ & H).
  apply andb_true_iff in H. tauto.
Qed.

(** C8.  Neither a file upload nor a manual edit touches the history: the
    upload section and the text section leave [qa_history], and the latest
    answer, as they were, and
    a whole run without the clear button ends with the history it started
    with, followed by whatever the run appended, which is nothing unless
    the question form was submitted. *)
Theorem context_change_keeps_history env ui raw cache :
  clear_button ui = false ->
  (forall w,
     let w' := snd (upload_section env ui w) in
     qa_history (session w') = qa_history (session w) /\
     current_answer (session w') = current_answer (session w)) /\
  (forall w,
     let w' := snd (text_section ui w) in
     qa_history (session w') = qa_history (session w) /\
     current_answer (session w') = current_answer (session w)) /\
  exists newer,
    qa_history (session (snd (main env ui raw cache)))
    = qa_history (init_session_state raw) ++ newer /\
    (form_submit_button ui = false -> newer = []).
Proof.
  intros Hclear. split; [| split].
  - intros w. destruct (upload_section env ui w) as [r w1] eqn:Hup.
    destruct (upload_section_frame _ _ _ _ _ Hup) as (Hh & Ha & _).
    split; assumption.
  - intros w. destruct (text_section_frame ui w) as (Hh & Ha & _).
    split; assumption.
  - rewrite main_unfold.
    set (w0 := {| session := init_session_state raw; model_cache := cache;
                  output := []; calls := [] |}).
    destruct (page_outcome env ui w0 Hclear)
      as [(f & e & _ & _ & _ & Hs & _) | (w1 & Hup & Hend)].
    + exists []. rewrite Hs, app_nil_r. split; reflexivity.
    + destruct (upload_section_frame _ _ _ _ _ Hup) as (Hh1 & _).
      destruct (text_section_frame ui w1) as (Hh2 & _).
      cbv zeta in Hend, Hh2.
      destruct (submits ui (session (snd (text_section ui w1)))) eqn:Hsub.
      * submission Hend.
        -- eexists. split.
           ++ rewrite Hs. cbn [recorded set_current_answer set_qa_history
                                qa_history].
              rewrite Hh2, Hh1. reflexivity.
           ++ intros Hoff. apply submits_pressed in Hsub. congruence.
        -- exists []. rewrite Hs, Hh2, Hh1, app_nil_r. split; reflexivity.
      * destruct Hend as (_ & Hs & _). exists [].
        rewrite Hs, Hh2, Hh1, app_nil_r. split; reflexivity.
Qed.

Lemma context_change_keeps_history_witness :
  let ui := Demo.typing (str "Grass is green.") in
  let past := [{| question := str "Why?"; answer := str "Because.";
                  timestamp := str "08:00:00" |}] in
  let raw := {| ss_user_text := Some (str "The sky is blue.");
                ss_qa_history := Some past;
                ss_current_answer := Some (str "Because.");
                ss_file_uploaded := None; ss_file_name := None |} in
  clear_button ui = false /\
  qa_history (session (snd (main (Demo.env None) ui raw None))) = past.
Proof.
  intros ui past raw. split; [reflexivity |].
  destruct (context_change_keeps_history (Demo.env None) ui raw None eq_refl)
    as (_ & _ & newer & Hh & Hnone).
  rewrite Hh, (Hnone eq_refl). apply app_nil_r.
Defined.

(** ** The credential *)

(** C9, as stated, fails: with no credential in the environment, and a
    client constructor that refuses to work without one, the first run
    draws the page to its end and calls nothing; the refusal shows up
    only once a question is asked, as the text of the answer. *)
Lemma missing_credential_starts_normally :
  GOOGLE_API_KEY (Demo.env None) = None /\
  ChatGoogleGenerativeAI (Demo.env None) None temperature model_id
  = inl Demo.missing_key /\
  fst (main (Demo.env None) Demo.idle fresh_state None) = Normal tt /\
  calls (snd (main (Demo.env None) Demo.idle fresh_state None)) = [] /\
  fst (main (Demo.env None) (Demo.asking (str "What color is the sky?"))
         Demo.sky None) = RerunException /\
  current_answer
    (session (snd (main (Demo.env None)
                     (Demo.asking (str "What color is the sky?"))
                     Demo.sky None)))
  = str "Error generating answer: API key required".
Proof. vm_compute. repeat split. Qed.

(** C9, amended.  With no credential in the environment and a client
    constructor that raises an [Exception] [e] without one, nothing fails
    at startup and no run raises [e]: the only exception a run lets
    escape is that of an upload that does not decode.  A run in which
    the clear button is pressed, or the form button is not, or the
    question or the context text is blank, or the upload does not decode,
    calls nothing and caches nothing.  A run without the clear button
    and with an upload that decodes, in which the form is submitted with
    a question and a context text that are not blank, tries the
    constructor once, ends by a rerun request, and stores ["Error
    generating answer: "] followed by [str(e)] as the latest answer and
    as the answer of the one entry it appends to the history. *)
Theorem missing_credential_surfaces_as_answer env ui raw e :
  GOOGLE_API_KEY env = None ->
  ChatGoogleGenerativeAI env None temperature model_id = inl e ->
  is_exception e = true ->
  let r := main env ui raw None in
  let s' := session (snd r) in
  (forall e', fst r = Uncaught e' ->
     exists f, file_uploader ui = Some f /\
               decode_utf8 env (read f) = inl e') /\
  (clear_button ui = true \/ form_submit_button ui = false \/
   strip (text_input ui) = [] \/ strip (user_text s') = [] \/
   (exists e', fst r = Uncaught e') ->
   calls (snd r) = [] /\ model_cache (snd r) = None) /\
  (clear_button ui = false ->
   (forall e', fst r <> Uncaught e') ->
   form_submit_button ui = true ->
   strip (text_input ui) <> [] ->
   strip (user_text s') <> [] ->
   fst r = RerunException /\
   calls (snd r) = [ConstructModel None] /\
   model_cache (snd r) = None /\
   current_answer s' = error_prefix ++ exn_str e /\
   qa_history s'
   = qa_history (init_session_state raw)
     ++ [{| question := text_input ui;
            answer := error_prefix ++ exn_str e;
            timestamp := now_HMS env |}]).
Proof.
  intros Hkey Hraise Hclass r s'. subst s' r. rewrite main_unfold.
  set (w0 := {| session := init_session_state raw; model_cache := None;
                output := []; calls := [] |}).
  assert (Hraise' : ChatGoogleGenerativeAI env (GOOGLE_API_KEY env)
                      temperature model_id = inl e)
    by (rewrite Hkey; exact Hraise).
  destruct (clear_button ui) eqn:Hclear.
  - pose proof (page_run env ui w0) as Hrun. rewrite Hclear in Hrun.
    rewrite Hrun. cbn [fst snd calls model_cache].
    split; [intros e' H; discriminate |].
    split; [intros _; split; reflexivity | intros H; discriminate].
  - destruct (page_outcome env ui w0 Hclear)
      as [(f & e0 & Hf & Hdec & Hflow & _ & Hcalls & Hcache)
         | (w1 & Hup & Hend)].
    + split; [| split].
      * intros e' He'. rewrite Hflow in He'. injection He' as <-.
        exists f. split; assumption.
      * intros _. rewrite Hcalls, Hcache. split; reflexivity.
      * intros _ Hok. exfalso. exact (Hok e0 Hflow).
    + destruct (upload_section_frame _ _ _ _ _ Hup) as (Hh1 & _).
      destruct (text_section_frame ui w1) as (Hh2 & _).
      cbv zeta in Hend, Hh2.
      destruct (submits ui (session (snd (text_section ui w1)))) eqn:Hsub.
      * apply submits_true_iff in Hsub.
        destruct Hsub as (Htext & Hbutton & Hquestion).
        submission Hend;
          rewrite (generate_answer_constructor_raises env _ _ W e HWcache
                     Hraise' Hclass) in Hgen;
          [| discriminate Hgen].
        injection Hgen as Hreply Hcache' Hmade.
        apply app_inv_head in Hmade. rewrite Hkey in Hmade.
        subst reply cache' made.
        rewrite Hflow, Hs, Hcalls, Hcache.
        cbn [recorded set_current_answer set_qa_history qa_history
               current_answer user_text w0 calls app].
        split; [intros e' H; discriminate |]. split.
        -- intros [H | [H | [H | [H | (e' & H)]]]];
             try congruence; discriminate.
        -- intros _ _ _ _ _. rewrite Hh2, Hh1. repeat split.
      * destruct Hend as (Hflow & Hs & Hcalls & Hcache).
        rewrite Hflow, Hs, Hcalls, Hcache.
        split; [intros e' H; discriminate |]. split.
        -- intros _. split; reflexivity.
        -- intros _ _ Hbutton Hquestion Htext. exfalso.
           assert (Hyes : submits ui (session (snd (text_section ui w1)))
                          = true)
             by (apply submits_true_iff; repeat split; assumption).
           congruence.
Qed.

Lemma missing_credential_surfaces_as_answer_witness :
  GOOGLE_API_KEY (Demo.env None) = None /\
  ChatGoogleGenerativeAI (Demo.env None) None temperature model_id
  = inl Demo.missing_key /\
  is_exception Demo.missing_key = true /\
  form_submit_button (Demo.asking (str "What color is the sky?")) = true /\
  fst (main (Demo.env None) (Demo.asking (str "What color is the sky?"))
         Demo.sky None) = RerunException /\
  current_answer
    (session (snd (main (Demo.env None)
                     (Demo.asking (str "What color is the sky?"))
                     Demo.sky None)))
  = error_prefix ++ exn_str Demo.missing_key.
Proof.
  split; [reflexivity |]. split; [reflexivity |]. split; [reflexivity |].
  split; [reflexivity |].
  pose proof (missing_credential_surfaces_as_answer (Demo.env None)
                (Demo.asking (str "What color is the sky?")) Demo.sky
                Demo.missing_key eq_refl eq_refl eq_refl) as H.
  cbv zeta in H. destruct H as (_ & _ & Hsubmit).
  assert (Hok : forall e',
             fst (main (Demo.env None)
                    (Demo.asking (str "What color is the sky?")) Demo.sky
                    None) <> Uncaught e')
    by (intros e'; vm_compute; discriminate).
  assert (Hquestion : strip (text_input
                               (Demo.asking (str "What color is the sky?")))
                      <> [])
    by (vm_compute; discriminate).
  assert (Htext : strip (user_text
                           (session (snd (main (Demo.env None)
                                            (Demo.asking
                                               (str "What color is the sky?"))
                                            Demo.sky None)))) <> [])
    by (vm_compute; discriminate).
  destruct (Hsubmit eq_refl Hok eq_refl Hquestion Htext)
    as (Hflow & _ & _ & Hanswer & _).
  split; [exact Hflow | exact Hanswer].
Defined.

(** ** The latest answer and the history *)

Lemma last_entry_app h qa : last_entry (h ++ [qa]) = Some qa.
Proof. unfold last_entry. rewrite rev_unit. reflexivity. Qed.

Lemma latest_recorded_fresh : latest_recorded (init_session_state fresh_state).
Proof. exact I. Qed.

Lemma latest_recorded_stored s :
  latest_recorded (init_session_state (stored s)) <-> latest_recorded s.
Proof. destruct s. reflexivity. Qed.

(** Every run keeps the latest answer equal to the answer of the newest
    history entry. *)
Lemma main_keeps_latest_recorded env ui raw cache :
  latest_recorded (init_session_state raw) ->
  latest_recorded (session (snd (main env ui raw cache))).
Proof.
  intros Hinv. rewrite main_unfold.
  set (w0 := {| session := init_session_state raw; model_cache := cache;
                output := []; calls := [] |}).
  destruct (clear_button ui) eqn:Hclear.
  - pose proof (page_run env ui w0) as Hrun. rewrite Hclear in Hrun.
    rewrite Hrun. exact I.
  - destruct (page_outcome env ui w0 Hclear)
      as [(f & e & _ & _ & _ & Hs & _) | (w1 & Hup & Hend)].
    + rewrite Hs. exact Hinv.
    + destruct (upload_section_frame _ _ _ _ _ Hup) as (Hh1 & Ha1 & _).
      destruct (text_section_frame ui w1) as (Hh2 & Ha2 & _).
      cbv zeta in Hend, Hh2, Ha2.
      destruct (submits ui (session (snd (text_section ui w1)))).
      * submission Hend.
        -- rewrite Hs. unfold latest_recorded.
           cbn [recorded set_current_answer set_qa_history qa_history
                  current_answer].
           rewrite last_entry_app. reflexivity.
        -- rewrite Hs. unfold latest_recorded.
           rewrite Hh2, Ha2, Hh1, Ha1. exact Hinv.
      * destruct Hend as (_ & Hs & _). rewrite Hs.
        unfold latest_recorded. rewrite Hh2, Ha2, Hh1, Ha1. exact Hinv.
Qed.

(** C10.  Every run of the script, whatever was clicked, typed, uploaded
    or asked and however the run ends, preserves the invariant: when the
    history is not empty, the latest answer is the answer of its last
    entry. *)
Theorem latest_answer_is_last_history_answer env ui raw cache :
  latest_recorded (init_session_state raw) ->
  let s' := session (snd (main env ui raw cache)) in
  forall qa, last_entry (qa_history s') = Some qa ->
             current_answer s' = answer qa.
Proof.
  intros Hinv s' qa Hlast.
  pose proof (main_keeps_latest_recorded env ui raw cache Hinv) as H.
  fold s' in H. unfold latest_recorded in H. rewrite Hlast in H. exact H.
Qed.

Lemma latest_answer_is_last_history_answer_witness :
  latest_recorded (init_session_state Demo.sky) /\
  forall qa,
    last_entry
      (qa_history
         (session (snd (main (Demo.env (Some (str "k")))
                          (Demo.asking (str "What color is the sky?"))
                          Demo.sky None)))) = Some qa ->
    current_answer
      (session (snd (main (Demo.env (Some (str "k")))
                       (Demo.asking (str "What color is the sky?"))
                       Demo.sky None))) = answer qa.
Proof.
  split; [exact I |].
  exact (latest_answer_is_last_history_answer (Demo.env (Some (str "k")))
           (Demo.asking (str "What color is the sky?")) Demo.sky None I).
Defined.

(** The invariant holds all along a visit that starts with a fresh
    session. *)
Lemma visit_keeps_latest_recorded runs raw cache :
  latest_recorded (init_session_state raw) ->
  latest_recorded (init_session_state (fst (visit runs raw cache))).
Proof.
  revert raw cache. induction runs as [| [env ui] rest IH]; intros raw cache.
  - intros H. exact H.
  - intros H. cbn [visit]. apply IH.
    apply latest_recorded_stored.
    apply main_keeps_latest_recorded, H.
Qed.

Corollary visit_from_fresh_latest_recorded runs :
  latest_recorded (init_session_state (fst (visit runs fresh_state None))).
Proof. apply visit_keeps_latest_recorded, latest_recorded_fresh. Qed.

(** * Further properties of the page *)

(** ** Words, lines and blank texts *)

Lemma lstrip_nil_iff (s : pystr) :
  lstrip s = [] <-> forallb isspace s = true.
Proof.
  induction s as [| c s IH]; cbn; [tauto |].
  destruct (isspace c); cbn; [exact IH |].
  split; discriminate.
Qed.

(** What [lstrip] leaves does not start with whitespace. *)
Lemma lstrip_head (s : pystr) c rest :
  lstrip s = c :: rest -> isspace c = false.
Proof.
  induction s as [| d s IH]; cbn; [discriminate |].
  destruct (isspace d) eqn:Hd; [exact IH |].
  intros H. injection H as <- _. exact Hd.
Qed.

Lemma forallb_rev {A} (f : A -> bool) (l : list A) :
  forallb f (rev l) = forallb f l.
Proof.
  induction l as [| a l IH]; [reflexivity |].
  cbn. rewrite forallb_app, IH. cbn. rewrite andb_true_r. apply andb_comm.
Qed.

Lemma strip_nil_iff (s : pystr) :
  strip s = [] <-> forallb isspace s = true.
Proof.
  unfold strip, rstrip. rewrite <- lstrip_nil_iff.
  split.
  - intros H. apply (f_equal (@rev N)) in H. rewrite rev_involutive in H.
    cbn in H. apply lstrip_nil_iff in H. rewrite forallb_rev in H.
    destruct (lstrip s) as [| c rest] eqn:Hl; [reflexivity |].
    pose proof (lstrip_head s c rest Hl) as Hc.
    cbn in H. rewrite Hc in H. discriminate.
  - intros H. rewrite H. reflexivity.
Qed.

Lemma split_ws_from_nil_iff (cur s : pystr) :
  split_ws_from cur s = [] <-> cur = [] /\ forallb isspace s = true.
Proof.
  revert cur. induction s as [| c s IH]; intros cur; cbn.
  - destruct cur; split; intros H; try discriminate; try tauto.
    destruct H; discriminate.
  - destruct (isspace c); cbn.
    + destruct cur as [| d cur].
      * rewrite IH. tauto.
      * split; [discriminate | intros [H _]; discriminate].
    + rewrite IH. split; [intros [H _]; discriminate | intros [_ H]; discriminate].
Qed.

Lemma split_ws_from_concat (cur s : pystr) :
  concat (split_ws_from cur s) = rev cur ++ filter nonspace s.
Proof.
  revert cur. induction s as [| c s IH]; intros cur; cbn [split_ws_from filter].
  - destruct cur; cbn; rewrite ?app_nil_r; reflexivity.
  - unfold nonspace at 1. destruct (isspace c); cbn [negb].
    + destruct cur as [| d cur].
      * rewrite IH. reflexivity.
      * rewrite concat_cons, IH. reflexivity.
    + rewrite IH. cbn [rev]. rewrite <- app_assoc. reflexivity.
Qed.

Lemma split_ws_from_words (cur s : pystr) :
  forallb nonspace cur = true ->
  Forall (fun word => word <> [] /\ forallb nonspace word = true)
    (split_ws_from cur s).
Proof.
  revert cur. induction s as [| c s IH]; intros cur Hcur; cbn [split_ws_from].
  - destruct cur as [| d cur]; constructor; [| constructor].
    split.
    + intros H. apply (f_equal (@length N)) in H.
      rewrite length_rev in H. discriminate.
    + rewrite forallb_rev. exact Hcur.
  - destruct (isspace c) eqn:Hc.
    + destruct cur as [| d cur]; [apply IH; reflexivity |].
      constructor; [| apply IH; reflexivity].
      split.
      * intros H. apply (f_equal (@length N)) in H.
        rewrite length_rev in H. discriminate.
      * rewrite forallb_rev. exact Hcur.
    + apply IH. cbn. unfold nonspace at 1. rewrite Hc. exact Hcur.
Qed.

(** X1.  The words [split()] counts are non-empty and free of whitespace,
    and put end to end they are the text with its whitespace removed. *)
Theorem split_ws_words (text : pystr) :
  Forall (fun word => word <> [] /\ forallb nonspace word = true)
    (split_ws text) /\
  concat (split_ws text) = filter nonspace text.
Proof.
  split.
  - apply split_ws_from_words. reflexivity.
  - unfold split_ws. rewrite split_ws_from_concat. reflexivity.
Qed.

(** X2.  The word count is zero exactly for a text that is blank once
    stripped: the texts for which the question form is not drawn are
    those whose Words statistic is 0. *)
Theorem word_count_zero_iff_blank (text : pystr) :
  word_count text = 0 <-> strip text = [].
Proof.
  unfold word_count, split_ws. rewrite strip_nil_iff.
  split.
  - intros H.
    destruct (split_ws_from [] text) eqn:Hs; [| cbn in H; lia].
    apply split_ws_from_nil_iff in Hs. tauto.
  - intros H.
    assert (Hs : split_ws_from [] text = [])
      by (apply split_ws_from_nil_iff; tauto).
    rewrite Hs. reflexivity.
Qed.

Lemma split_on_from_length (sep : N) (cur s : pystr) :
  length (split_on_from sep cur s) = S (count_occ N.eq_dec s sep).
Proof.
  revert cur. induction s as [| c s IH]; intros cur; [reflexivity |].
  cbn [split_on_from]. destruct (N.eqb_spec c sep) as [-> | Hne].
  - rewrite count_occ_cons_eq by reflexivity. cbn [length]. rewrite IH.
    reflexivity.
  - rewrite count_occ_cons_neq by exact Hne. apply IH.
Qed.

(** X3.  [text.split(chr(10))] has one piece more than the text has
    newline characters: the Lines statistic of a text without any newline
    is 1, and a trailing newline counts a further, empty line. *)
Theorem line_count_is_newlines_plus_one (text : pystr) :
  length (split_on newline text) = S (count_occ N.eq_dec text newline) /\
  length (split_on newline (text ++ [newline]))
  = S (length (split_on newline text)).
Proof.
  unfold split_on. rewrite !split_on_from_length. split; [reflexivity |].
  rewrite count_occ_app. cbn. lia.
Qed.

(** ** Reading time grows with the text *)

Lemma py_round_div_200_monotone (a b : Z) :
  0 <= a <= b -> py_round_div a 200 <= py_round_div b 200.
Proof.
  intros [Ha Hab].
  assert (Hb : 0 <= b) by lia.
  destruct (py_round_div_200_nearest a Ha) as (_ & Hna & Hea).
  destruct (py_round_div_200_nearest b Hb) as (_ & Hnb & Heb).
  cbv zeta in Hna, Hea, Hnb, Heb.
  destruct (Z_le_gt_dec (py_round_div a 200) (py_round_div b 200))
    as [Hle | Hgt]; [exact Hle | exfalso].
  assert (Hta : Z.abs (a - 200 * py_round_div a 200) = 100) by lia.
  assert (Htb : Z.abs (b - 200 * py_round_div b 200) = 100) by lia.
  apply Hea in Hta. apply Heb in Htb.
  apply Z.even_spec in Hta. apply Z.even_spec in Htb.
  destruct Hta as (ka & Hka). destruct Htb as (kb & Hkb). lia.
Qed.

(** X4.  A text with at least as many words is never shown a shorter
    reading time. *)
Theorem reading_time_monotone (shorter longer : pystr) :
  word_count shorter <= word_count longer ->
  reading_time shorter <= reading_time longer.
Proof.
  intros Hle. unfold reading_time.
  pose proof (word_count_nonneg shorter) as Hs.
  pose proof (py_round_div_200_monotone (word_count shorter)
                (word_count longer) (conj Hs Hle)).
  lia.
Qed.

Lemma reading_time_monotone_witness :
  word_count (Demo.words 299) <= word_count (Demo.words 300) /\
  reading_time (Demo.words 299) <= reading_time (Demo.words 300).
Proof.
  assert (H : word_count (Demo.words 299) <= word_count (Demo.words 300))
    by (vm_compute; discriminate).
  split; [exact H |].
  exact (reading_time_monotone (Demo.words 299) (Demo.words 300) H).
Defined.

(** ** The cached client *)

(** X5.  [generate_answer] builds the client only when none is cached.
    With a cached client it sends one prompt, the template filled with
    the context and the question, and keeps the client.  With none, it
    tries the constructor once: a client that is built is cached and
    sent the prompt, also when the call or the parser then fails; a
    constructor that raises leaves nothing cached and nothing is sent.
    The call ends with a string, or with an exception that is not an
    [Exception]. *)
Theorem generate_answer_reuses_client env context_text asked w :
  exists flow w',
    generate_answer env context_text asked w = (flow, w') /\
    match flow with
    | Normal _ => True
    | RerunException => False
    | Uncaught e => is_exception e = false
    end /\
    match model_cache w with
    | Some m =>
        model_cache w' = Some m /\
        calls w' = calls w ++ [InvokeModel (format_prompt context_text asked)]
    | None =>
        match ChatGoogleGenerativeAI env (GOOGLE_API_KEY env) temperature
                model_id with
        | inl _ =>
            model_cache w' = None /\
            calls w' = calls w ++ [ConstructModel (GOOGLE_API_KEY env)]
        | inr m =>
            model_cache w' = Some m /\
            calls w' = calls w ++ [ConstructModel (GOOGLE_API_KEY env);
                                   InvokeModel
                                     (format_prompt context_text asked)]
        end
    end.
Proof.
  destruct (generate_answer_run env context_text asked w)
    as (flow & cache' & made & Hrun & _ & Hclient).
  destruct (generate_answer_frame env context_text asked w)
    as (flow0 & cache0 & made0 & Hrun0 & Hflow).
  rewrite Hrun in Hrun0. injection Hrun0 as <- _ _.
  eexists; eexists. split; [exact Hrun |]. split; [exact Hflow |].
  cbn [model_cache calls].
  destruct (model_cache w) as [m |];
    [| destruct (ChatGoogleGenerativeAI env (GOOGLE_API_KEY env) temperature
                   model_id)];
    destruct Hclient as (-> & ->); split; reflexivity.
Qed.

(** What the calls and the cache of a submission are, read off the result
    of [generate_answer]. *)
Lemma submission_calls env context_text asked W flow cache' made :
  generate_answer env context_text asked W
  = (flow,
     {| session := session W; model_cache := cache'; output := output W;
        calls := calls W ++ made |}) ->
  match model_cache W with
  | Some m =>
      cache' = Some m /\
      made = [InvokeModel (format_prompt context_text asked)]
  | None =>
      match ChatGoogleGenerativeAI env (GOOGLE_API_KEY env) temperature
              model_id with
      | inl _ => cache' = None /\ made = [ConstructModel (GOOGLE_API_KEY env)]
      | inr m =>
          cache' = Some m /\
          made = [ConstructModel (GOOGLE_API_KEY env);
                  InvokeModel (format_prompt context_text asked)]
      end
  end.
Proof.
  intros Hgen.
  destruct (generate_answer_run env context_text asked W)
    as (flow0 & cache0 & made0 & Hrun & _ & Hclient).
  rewrite Hrun in Hgen. injection Hgen as _ Hc Hm.
  apply app_inv_head in Hm. subst cache0 made0. exact Hclient.
Qed.

Lemma init_session_state_stored s : init_session_state (stored s) = s.
Proof. destruct s. reflexivity. Qed.

(** X6.  A run that starts with a cached client ends with the same
    client cached and never calls the constructor, whatever the run
    does. *)
Theorem cached_client_is_kept env ui raw m :
  let r := main env ui raw (Some m) in
  model_cache (snd r) = Some m /\
  forall key, ~ In (ConstructModel key) (calls (snd r)).
Proof.
  intros r. subst r. rewrite main_unfold.
  set (w0 := {| session := init_session_state raw; model_cache := Some m;
                output := []; calls := [] |}).
  destruct (clear_button ui) eqn:Hclear.
  - pose proof (page_run env ui w0) as Hrun. rewrite Hclear in Hrun.
    rewrite Hrun. split; [reflexivity | intros key []].
  - destruct (page_outcome env ui w0 Hclear)
      as [(f & e & _ & _ & _ & _ & Hcalls & Hcache) | (w1 & _ & Hend)].
    + rewrite Hcalls, Hcache. split; [reflexivity | intros key []].
    + cbv zeta in Hend.
      destruct (submits ui (session (snd (text_section ui w1)))).
      * submission Hend;
          apply submission_calls in Hgen; rewrite HWcache in Hgen;
          cbn [model_cache w0] in Hgen; destruct Hgen as (-> & ->);
          rewrite Hcalls, Hcache;
          (split; [reflexivity | intros key [H | []]; discriminate]).
      * destruct Hend as (_ & _ & Hcalls & Hcache).
        rewrite Hcalls, Hcache. split; [reflexivity | intros key []].
Qed.

(** X7.  A run sends at most one prompt to the model.  When it sends
    one, the prompt is the template filled with the context text the run
    leaves in the store and the question typed; the run then ends by a
    rerun request with that question as the one of the newest history
    entry, unless the call let through an exception that is not an
    [Exception], which ends the run. *)
Theorem one_prompt_per_run env ui raw cache :
  let r := main env ui raw cache in
  (length (filter is_invoke (calls (snd r))) <= 1)%nat /\
  forall prompt,
    In (InvokeModel prompt) (calls (snd r)) ->
    prompt = format_prompt (user_text (session (snd r))) (text_input ui) /\
    ((fst r = RerunException /\
      exists qa, last_entry (qa_history (session (snd r))) = Some qa /\
                 question qa = text_input ui) \/
     (exists e, fst r = Uncaught e /\ is_exception e = false)).
Proof.
  intros r. subst r. rewrite main_unfold.
  set (w0 := {| session := init_session_state raw; model_cache := cache;
                output := []; calls := [] |}).
  destruct (clear_button ui) eqn:Hclear.
  - pose proof (page_run env ui w0) as Hrun. rewrite Hclear in Hrun.
    rewrite Hrun. split; [cbn; lia | intros prompt []].
  - destruct (page_outcome env ui w0 Hclear)
      as [(f & e & _ & _ & _ & _ & Hcalls & _) | (w1 & _ & Hend)].
    + rewrite Hcalls. split; [cbn; lia | intros prompt []].
    + cbv zeta in Hend.
      destruct (submits ui (session (snd (text_section ui w1)))).
      * assert (Hmade : forall flow cache' made W,
                  generate_answer env
                    (user_text (session (snd (text_section ui w1))))
                    (text_input ui) W
                  = (flow,
                     {| session := session W; model_cache := cache';
                        output := output W; calls := calls W ++ made |}) ->
                  (length (filter is_invoke made) <= 1)%nat /\
                  forall prompt, In (InvokeModel prompt) made ->
                    prompt = format_prompt
                               (user_text (session (snd (text_section ui w1))))
                               (text_input ui)).
        { intros flow cache' made W Hgen. apply submission_calls in Hgen.
          destruct (model_cache W).
          - destruct Hgen as (_ & ->). split; [cbn; lia |].
            intros prompt [H | []]. congruence.
          - destruct (ChatGoogleGenerativeAI env _ _ _);
              destruct Hgen as (_ & ->); (split; [cbn; lia |]).
            + intros prompt [H | []]. discriminate.
            + intros prompt [H | [H | []]]; [discriminate | congruence]. }
        submission Hend;
          destruct (Hmade _ _ _ _ Hgen) as (Hone & Hprompt);
          rewrite Hcalls, Hs, Hflow; cbn [w0 calls app];
          (split; [exact Hone |]);
          intros prompt Hin; (split; [exact (Hprompt prompt Hin) |]).
        -- left. split; [reflexivity |].
           eexists. split; [apply last_entry_app | reflexivity].
        -- right. exists escaped. split; [reflexivity | exact Hescaped].
      * destruct Hend as (_ & _ & Hcalls & _).
        rewrite Hcalls. split; [cbn; lia | intros prompt []].
Qed.

(** ** The history grows one entry at a time *)

Lemma main_history_length env ui raw cache :
  (length (qa_history (session (snd (main env ui raw cache))))
   <= S (length (qa_history (init_session_state raw))))%nat.
Proof.
  rewrite main_unfold.
  set (w0 := {| session := init_session_state raw; model_cache := cache;
                output := []; calls := [] |}).
  destruct (clear_button ui) eqn:Hclear.
  - pose proof (page_run env ui w0) as Hrun. rewrite Hclear in Hrun.
    rewrite Hrun. cbn. lia.
  - destruct (page_outcome env ui w0 Hclear)
      as [(f & e & _ & _ & _ & Hs & _) | (w1 & Hup & Hend)].
    + rewrite Hs. cbn. lia.
    + destruct (upload_section_frame _ _ _ _ _ Hup) as (Hh1 & _).
      destruct (text_section_frame ui w1) as (Hh2 & _).
      cbv zeta in Hend, Hh2.
      destruct (submits ui (session (snd (text_section ui w1)))).
      * submission Hend.
        -- rewrite Hs. cbn [recorded set_current_answer set_qa_history
                              qa_history].
           rewrite length_app, Hh2, Hh1. cbn. lia.
        -- rewrite Hs, Hh2, Hh1. cbn. lia.
      * destruct Hend as (_ & Hs & _). rewrite Hs, Hh2, Hh1. cbn. lia.
Qed.

Lemma visit_history_length runs raw cache :
  (length (qa_history (init_session_state (fst (visit runs raw cache))))
   <= length (qa_history (init_session_state raw)) + length runs)%nat.
Proof.
  revert raw cache. induction runs as [| [env ui] rest IH]; intros raw cache.
  - cbn. lia.
  - cbn [visit length].
    specialize (IH (stored (session (snd (main env ui raw cache))))
                  (model_cache (snd (main env ui raw cache)))).
    rewrite init_session_state_stored in IH.
    pose proof (main_history_length env ui raw cache). lia.
Qed.

(** X8.  Along a visit that starts with a fresh session, the history
    never holds more entries than there were runs of the script: a run
    appends one entry at most. *)
Theorem history_bounded_by_runs runs cache :
  (length (qa_history
             (init_session_state (fst (visit runs fresh_state cache))))
   <= length runs)%nat.
Proof.
  pose proof (visit_history_length runs fresh_state cache) as H.
  cbn in H. exact H.
Qed.

(** ** Submissions *)



(** ** Uploads *)

Lemma page_output_grows env ui w w1 x :
  clear_button ui = false ->
  upload_section env ui (shown page_head w) = (Normal tt, w1) ->
  In x (output w1) -> In x (output (snd (page env ui w))).
Proof.
  intros Hclear Hup Hin.
  pose proof (page_run env ui w) as Hrun. rewrite Hclear, Hup in Hrun.
  destruct (text_section_frame ui w1) as (_ & _ & _ & _ & Hout2).
  cbv zeta in Hrun, Hout2.
  destruct Hrun as (stats & _ & _ & Hrun).
  destruct (submits ui (session (snd (text_section ui w1)))).
  - destruct Hrun as (flow & cache' & made & _ & Hpage).
    destruct flow as [reply | | e];
      [| destruct Hpage | destruct Hpage as (_ & Hpage)];
      rewrite Hpage; cbn [snd output shown]; rewrite Hout2, !in_app_iff;
      tauto.
  - destruct Hrun as (tail & Hpage & _).
    rewrite Hpage. cbn [snd output shown]. rewrite Hout2, !in_app_iff. tauto.
Qed.

(** X10.  In a run without the clear button, a file whose bytes decode
    is loaded: when the text area hands back the decoded text it was
    given, the run ends with that text as the context text, the file's
    name as the file name and the file-uploaded flag on, and it displays
    the upload confirmation for that name. *)
Theorem upload_loads_file env ui raw cache f file_content :
  clear_button ui = false ->
  file_uploader ui = Some f ->
  decode_utf8 env (read f) = inr file_content ->
  text_area ui file_content = file_content ->
  let r := main env ui raw cache in
  user_text (session (snd r)) = file_content /\
  file_name (session (snd r)) = name f /\
  file_uploaded (session (snd r)) = true /\
  In (SuccessUploaded (name f)) (output (snd r)).
Proof.
  intros Hclear Hf Hdec Hsame r. subst r. rewrite main_unfold.
  set (w0 := {| session := init_session_state raw; model_cache := cache;
                output := []; calls := [] |}).
  pose proof (upload_section_run env ui (shown page_head w0)) as Hup.
  rewrite Hf, Hdec in Hup.
  assert (Hshown : In (SuccessUploaded (name f))
                     (output (snd (page env ui w0)))).
  { eapply page_output_grows; [exact Hclear | exact Hup |].
    cbn [output]. apply in_app_iff. right. left. reflexivity. }
  destruct (page_outcome env ui w0 Hclear)
    as [(f' & e & Hf' & Hdec' & _) | (w1 & Hup' & Hend)].
  - rewrite Hf in Hf'. injection Hf' as <-. rewrite Hdec in Hdec'.
    discriminate.
  - rewrite Hup in Hup'. injection Hup' as <-.
    cbv zeta in Hend. rewrite text_section_run in Hend.
    cbn [snd session user_text] in Hend.
    apply pystr_eqb_eq in Hsame. rewrite Hsame in Hend.
    match type of Hend with if ?b then _ else _ => destruct b end.
    + submission Hend; rewrite Hs; repeat split; exact Hshown.
    + destruct Hend as (_ & Hs & _). rewrite Hs. repeat split. exact Hshown.
Qed.

Lemma upload_loads_file_witness :
  let f := {| name := str "sky.txt"; read := [x68; x69] |} in
  clear_button (Demo.uploading f) = false /\
  decode_utf8 (Demo.env None) (read f) = inr (str "hi") /\
  user_text (session (snd (main (Demo.env None) (Demo.uploading f)
                             Demo.sky None))) = str "hi".
Proof.
  intros f. split; [reflexivity |]. split; [reflexivity |].
  exact (proj1 (upload_loads_file (Demo.env None) (Demo.uploading f) Demo.sky
                  None f (str "hi") eq_refl eq_refl eq_refl eq_refl)).
Defined.

(** X11.  In a run without the clear button, a file whose bytes do not
    decode stops the script with the decoder's exception right after the
    page heading: the session is as the run found it, nothing further is
    displayed and nothing is called. *)
Theorem undecodable_upload_changes_nothing env ui raw cache f e :
  clear_button ui = false ->
  file_uploader ui = Some f ->
  decode_utf8 env (read f) = inl e ->
  main env ui raw cache
  = (Uncaught e,
     {| session := init_session_state raw; model_cache := cache;
        output := page_head; calls := [] |}).
Proof.
  intros Hclear Hf Hdec. rewrite main_unfold.
  set (w0 := {| session := init_session_state raw; model_cache := cache;
                output := []; calls := [] |}).
  pose proof (page_run env ui w0) as Hrun. rewrite Hclear in Hrun.
  rewrite upload_section_run, Hf, Hdec in Hrun. exact Hrun.
Qed.

Lemma undecodable_upload_changes_nothing_witness :
  let f := {| name := str "sky.txt"; read := [xff] |} in
  decode_utf8 (Demo.env None) (read f) = inl Demo.not_utf8 /\
  session (snd (main (Demo.env None) (Demo.uploading f) Demo.sky None))
  = init_session_state Demo.sky.
Proof.
  intros f. split; [reflexivity |].
  rewrite (undecodable_upload_changes_nothing (Demo.env None)
             (Demo.uploading f) Demo.sky None f Demo.not_utf8
             eq_refl eq_refl eq_refl).
  reflexivity.
Defined.

(** ** Runs in which nothing happens *)

(** X12.  A run in which nothing is clicked, no file is in the uploader,
    the text area hands back the text it was given and the form is not
    submitted draws the page to its end and leaves the session, the
    cached client and the log of calls as they were. *)
Theorem idle_run_changes_nothing env ui raw cache :
  clear_button ui = false ->
  file_uploader ui = None ->
  text_area ui (user_text (init_session_state raw))
  = user_text (init_session_state raw) ->
  form_submit_button ui = false ->
  let r := main env ui raw cache in
  fst r = Normal tt /\
  session (snd r) = init_session_state raw /\
  model_cache (snd r) = cache /\
  calls (snd r) = [].
Proof.
  intros Hclear Hf Hsame Hoff r. subst r. rewrite main_unfold.
  set (w0 := {| session := init_session_state raw; model_cache := cache;
                output := []; calls := [] |}).
  destruct (page_outcome env ui w0 Hclear)
    as [(f' & e & Hf' & _) | (w1 & Hup & Hend)].
  - congruence.
  - rewrite upload_section_run, Hf in Hup. injection Hup as <-.
    cbv zeta in Hend. rewrite text_section_run in Hend.
    cbn [snd session shown w0] in Hend.
    apply pystr_eqb_eq in Hsame. rewrite Hsame in Hend.
    destruct (submits ui (init_session_state raw)) eqn:Hsub.
    + apply submits_pressed in Hsub. congruence.
    + destruct Hend as (Hflow & Hs & Hcalls & Hcache).
      repeat split; assumption.
Qed.

Lemma idle_run_changes_nothing_witness :
  clear_button Demo.idle = false /\
  session (snd (main (Demo.env None) Demo.idle Demo.sky None))
  = init_session_state Demo.sky.
Proof.
  split; [reflexivity |].
  destruct (idle_run_changes_nothing (Demo.env None) Demo.idle Demo.sky None
              eq_refl eq_refl eq_refl eq_refl) as (_ & Hs & _).
  exact Hs.
Defined.

(** ** What the page displays *)

Lemma statistics_section_exact w :
  displays statistics_section w
    (if truthy (user_text (session w)) then
       [StatisticsHeader;
        Metric (str "Characters")
          (format_int_comma (len (user_text (session w))));
        Metric (str "Words")
          (format_int_comma
             (Z.of_nat (length (split_ws (user_text (session w))))));
        Metric (str "Lines")
          (format_int_comma
             (Z.of_nat (length (split_on 10 (user_text (session w))))));
        Metric (str "Est. Reading Time")
          (format_int (reading_time (user_text (session w))) ++ str " min")]
       ++ (if file_uploaded (session w)
           then [InfoLoadedFrom (file_name (session w))] else [])
       ++ (if large_text_limit <? len (user_text (session w))
           then [WarningLargeText] else [])
     else []).
Proof.
  unfold statistics_section. apply displays_get.
  destruct (truthy (user_text (session w))); cbn [when];
    [| apply displays_ret].
  match goal with
  | |- displays _ _ ([?a; ?b; ?c; ?d; ?e] ++ ?rest) =>
      change ([a; b; c; d; e] ++ rest)
        with ([a] ++ [b] ++ [c] ++ [d] ++ [e] ++ rest)
  end.
  repeat (eapply displays_seq; [apply displays_emit |]).
  eapply displays_seq.
  - destruct (file_uploaded (session w)); cbn [when];
      [apply displays_emit | apply displays_ret].
  - destruct (large_text_limit <? len (user_text (session w))); cbn [when];
      [apply displays_emit | apply displays_ret].
Qed.

(** X13.  For a non-empty context text the statistics panel shows its
    length in characters, its number of words and its number of lines,
    one more than it has newline characters, each with thousands
    separators, and names the file the text was loaded from exactly when
    the file-uploaded flag is on.  For an empty text it shows nothing. *)
Theorem statistics_panel_counts w :
  let text := user_text (session w) in
  let out := output (snd (statistics_section w)) in
  (text = [] -> out = output w) /\
  (text <> [] ->
   In (Metric (str "Characters") (format_int_comma (len text))) out /\
   In (Metric (str "Words") (format_int_comma (word_count text))) out /\
   In (Metric (str "Lines")
         (format_int_comma
            (Z.of_nat (S (count_occ N.eq_dec text newline))))) out /\
   forall file,
     In (InfoLoadedFrom file) out <->
     In (InfoLoadedFrom file) (output w) \/
     (file_uploaded (session w) = true /\ file = file_name (session w))).
Proof.
  intros text out. subst out.
  rewrite (statistics_section_exact w). cbn [snd shown output]. fold text.
  split.
  - intros Hempty. rewrite Hempty. cbn [truthy]. apply app_nil_r.
  - intros Hne. apply truthy_true_iff in Hne. rewrite Hne.
    pose proof (split_on_from_length newline [] text) as Hlines.
    change (split_on 10 text) with (split_on_from newline [] text).
    rewrite Hlines. fold (word_count text).
    split; [| split; [| split]].
    + apply in_app_iff. right. cbn. auto.
    + apply in_app_iff. right. cbn. auto.
    + apply in_app_iff. right. cbn. auto 6.
    + intros file. rewrite (statistics_section_exact w).
      cbn [snd shown output]. fold text. rewrite Hne, !in_app_iff.
      destruct (file_uploaded (session w));
        destruct (large_text_limit <? len text); cbn;
        intuition (try discriminate; try congruence).
Qed.

Lemma statistics_panel_counts_witness :
  let w := {| session := set_user_text (str "one two
three") empty_session;
              model_cache := None; output := []; calls := [] |} in
  user_text (session w) <> [] /\
  In (Metric (str "Lines") (str "2")) (output (snd (statistics_section w))).
Proof.
  intros w.
  assert (Hne : user_text (session w) <> []) by (vm_compute; discriminate).
  split; [exact Hne |].
  pose proof (statistics_panel_counts w) as H. cbv zeta in H.
  destruct H as (_ & H). destruct (H Hne) as (_ & _ & Hlines & _).
  exact Hlines.
Defined.

Lemma question_section_quiet env ui w :
  submits ui (session w) = false ->
  displays (question_section env ui) w
    (if truthy (strip (user_text (session w))) then [] else [InfoEnterText]).
Proof.
  unfold submits, question_section. intros Hsub. apply displays_get.
  destruct (truthy (strip (user_text (session w)))); cbn [andb] in Hsub.
  - cbv zeta. rewrite Hsub. apply displays_ret.
  - apply displays_emit.
Qed.

Lemma statistics_section_kinds w :
  exists stats,
    displays statistics_section w stats /\
    forallb is_statistic stats = true /\
    (In StatisticsHeader stats <-> user_text (session w) <> []).
Proof.
  eexists. split; [apply statistics_section_exact |].
  destruct (truthy (user_text (session w))) eqn:Ht.
  - apply truthy_true_iff in Ht.
    destruct (file_uploaded (session w));
      destruct (large_text_limit <? len (user_text (session w)));
      (split; [reflexivity | cbn; tauto]).
  - split; [reflexivity |]. cbn.
    rewrite <- truthy_true_iff, Ht. split; [tauto | discriminate].
Qed.

(** The page of a run that neither clears nor submits, element by
    element. *)
Lemma page_quiet_output env ui w w1 :
  clear_button ui = false ->
  upload_section env ui (shown page_head w) = (Normal tt, w1) ->
  let w2 := snd (text_section ui w1) in
  submits ui (session w2) = false ->
  exists stats,
    forallb is_statistic stats = true /\
    (In StatisticsHeader stats <-> user_text (session w2) <> []) /\
    fst (page env ui w) = Normal tt /\
    session (snd (page env ui w)) = session w2 /\
    output (snd (page env ui w))
    = output w1 ++ stats ++ [Rule; Subheader 2]
      ++ (if truthy (strip (user_text (session w2)))
          then [] else [InfoEnterText])
      ++ (if truthy (current_answer (session w2))
          then [Rule; Subheader 3; LatestAnswer (current_answer (session w2))]
          else [])
      ++ (match qa_history (session w2) with
          | [] => []
          | _ :: _ =>
              [Rule; Subheader 4]
              ++ map (history_expander (length (qa_history (session w2))))
                   (enumerate (rev (slice_last 5 (qa_history (session w2)))))
          end)
      ++ (if truthy (user_text (session w2))
          then [Rule; OriginalText (user_text (session w2))] else [])
      ++ [Rule; Footer].
Proof.
  intros Hclear Hup w2 Hsub.
  assert (Htext : text_section ui w1 = (Normal tt, w2))
    by (subst w2; rewrite text_section_run; reflexivity).
  assert (Hout2 : output w2 = output w1)
    by (apply (text_section_frame ui w1)).
  destruct (statistics_section_kinds w2) as (stats & Hstats & Hkinds & Hhead).
  exists stats. split; [exact Hkinds |]. split; [exact Hhead |].
  unfold page.
  pose proof (sidebar_run ui w) as Hside. rewrite Hclear in Hside.
  rewrite (bind_normal _ _ _ _ _ Hside).
  rewrite (bind_normal _ _ _ _ _ (emit_shown _ _)), shown_shown.
  rewrite (bind_normal _ _ _ _ _ (emit_shown _ _)), shown_shown.
  rewrite (bind_normal _ _ _ _ _ (emit_shown _ _)), shown_shown.
  change (([SidebarTitle; SidebarHelp] ++ [PageTitle]) ++ [Rule]
          ++ [Subheader 1]) with page_head.
  rewrite (bind_normal _ _ _ _ _ Hup).
  rewrite (bind_normal _ _ _ _ _ Htext).
  rewrite (bind_normal _ _ _ _ _ Hstats).
  rewrite (bind_normal _ _ _ _ _ (emit_shown _ _)).
  rewrite (bind_normal _ _ _ _ _ (emit_shown _ _)).
  rewrite (bind_normal _ _ _ _ _
             (question_section_quiet env ui
                (shown [Subheader 2] (shown [Rule] (shown stats w2))) Hsub)).
  rewrite (bind_normal _ _ _ _ _ (answer_section_run _)).
  rewrite (bind_normal _ _ _ _ _ (history_section_run _)).
  rewrite (bind_normal _ _ _ _ _ (original_text_section_run _)).
  rewrite (bind_normal _ _ _ _ _ (emit_shown _ _)).
  rewrite emit_shown.
  cbn [fst snd shown session output].
  split; [reflexivity |]. split; [reflexivity |].
  rewrite Hout2, <- !app_assoc. reflexivity.
Qed.

Lemma history_elements_kinds total items x :
  In x ([Rule; Subheader 4] ++ map (history_expander total) items) ->
  x = Rule \/ x = Subheader 4 \/ exists label body, x = Expander label body.
Proof.
  intros [H | [H | H]]; [auto | auto |].
  apply in_map_iff in H. destruct H as ((i & qa) & H & _).
  right. right. cbn in H. eauto.
Qed.

Lemma truthy_false_iff (s : pystr) : truthy s = false <-> s = [].
Proof. destruct s; cbn; split; congruence. Qed.

(** A run that draws the page to its end neither cleared nor stopped on
    the upload nor submitted. *)
Lemma normal_run_is_quiet env ui w :
  fst (page env ui w) = Normal tt ->
  clear_button ui = false /\
  exists w1,
    upload_section env ui (shown page_head w) = (Normal tt, w1) /\
    submits ui (session (snd (text_section ui w1))) = false.
Proof.
  intros Hflow. pose proof (page_run env ui w) as Hrun.
  destruct (clear_button ui).
  - rewrite Hrun in Hflow. discriminate.
  - split; [reflexivity |].
    destruct (upload_section env ui (shown page_head w))
      as [[[] | | e] w1] eqn:Hup.
    + exists w1. split; [reflexivity |].
      cbv zeta in Hrun. destruct Hrun as (stats & _ & _ & Hrun).
      destruct (submits ui (session (snd (text_section ui w1))));
        [| reflexivity].
      destruct Hrun as (flow & cache' & made & _ & Hpage).
      destruct flow as [reply | | e];
        [| destruct Hpage | destruct Hpage as (_ & Hpage)];
        rewrite Hpage in Hflow; discriminate.
    + destruct Hrun.
    + rewrite Hrun in Hflow. discriminate.
Qed.

(** X14.  In a run that draws the page to its end, each panel follows
    the store the run leaves: the hint to enter a text is displayed
    exactly when the context text is blank; the latest-answer block
    exactly when the latest answer is not empty, and it holds that
    answer; the original-text view and the statistics exactly when the
    context text is not empty; the history heading exactly when the
    history is not empty. *)
Theorem page_panels_follow_store env ui raw cache :
  let r := main env ui raw cache in
  let s' := session (snd r) in
  let out := output (snd r) in
  fst r = Normal tt ->
  (In InfoEnterText out <-> strip (user_text s') = []) /\
  (forall a, In (LatestAnswer a) out <-> a = current_answer s' /\ a <> []) /\
  (forall t, In (OriginalText t) out <-> t = user_text s' /\ t <> []) /\
  (In StatisticsHeader out <-> user_text s' <> []) /\
  (In (Subheader 4) out <-> qa_history s' <> []).
Proof.
  intros r s' out. subst out s' r. rewrite main_unfold.
  set (w0 := {| session := init_session_state raw; model_cache := cache;
                output := []; calls := [] |}).
  intros Hflow.
  destruct (normal_run_is_quiet env ui w0 Hflow) as (Hclear & w1 & Hup & Hsub).
  destruct (page_quiet_output env ui w0 w1 Hclear Hup Hsub)
    as (stats & Hkinds & Hstatshead & _ & Hs & Hout).
  rewrite Hs, Hout. clear Hs Hout Hflow.
  set (s2 := session (snd (text_section ui w1))) in *.
  assert (Hhead : forall x, In x (output w1) ->
                    In x page_head \/ exists f, x = SuccessUploaded f).
  { intros x Hx.
    destruct (upload_section_frame _ _ _ _ _ Hup) as (_ & _ & _ & _ & Hw1).
    destruct (Hw1 x Hx) as [H | H]; [left; exact H | right; exact H]. }
  assert (Hstat : forall x, In x stats -> is_statistic x = true)
    by (apply forallb_forall; exact Hkinds).
  assert (Hmap : forall x total items,
             In x (map (history_expander total) items) ->
             exists label body, x = Expander label body).
  { intros x total items H. apply in_map_iff in H.
    destruct H as ((i & qa) & H & _). cbn in H. eauto. }
  split; [| split; [| split; [| split]]].
  - assert (H1 : ~ In InfoEnterText (output w1)).
    { intros H. destruct (Hhead _ H) as [H' | (f & H')];
        [cbn in H'; intuition discriminate | discriminate]. }
    assert (H2 : ~ In InfoEnterText stats)
      by (intros H; apply Hstat in H; discriminate).
    assert (H3 : forall total items,
               ~ In InfoEnterText (map (history_expander total) items)).
    { intros total items H. destruct (Hmap _ _ _ H) as (l & b & H').
      discriminate. }
    rewrite <- (truthy_false_iff (strip (user_text s2))).
    destruct (truthy (strip (user_text s2)));
      destruct (truthy (current_answer s2));
      destruct (qa_history s2) as [| qa0 h0];
      destruct (truthy (user_text s2));
      rewrite !in_app_iff; cbn [In];
      try specialize (H3 (length (qa0 :: h0))
                        (enumerate (rev (slice_last 5 (qa0 :: h0)))));
      intuition (try discriminate; try congruence).
  - intros a.
    assert (H1 : ~ In (LatestAnswer a) (output w1)).
    { intros H. destruct (Hhead _ H) as [H' | (f & H')];
        [cbn in H'; intuition discriminate | discriminate]. }
    assert (H2 : ~ In (LatestAnswer a) stats)
      by (intros H; apply Hstat in H; discriminate).
    assert (H3 : forall total items,
               ~ In (LatestAnswer a) (map (history_expander total) items)).
    { intros total items H. destruct (Hmap _ _ _ H) as (l & b & H').
      discriminate. }
    destruct (truthy (strip (user_text s2)));
      destruct (current_answer s2) as [| c0 a0];
      destruct (qa_history s2) as [| qa0 h0];
      destruct (truthy (user_text s2));
      cbn [truthy]; rewrite !in_app_iff; cbn [In];
      try specialize (H3 (length (qa0 :: h0))
                        (enumerate (rev (slice_last 5 (qa0 :: h0)))));
      intuition (try discriminate; try congruence).
  - intros t.
    assert (H1 : ~ In (OriginalText t) (output w1)).
    { intros H. destruct (Hhead _ H) as [H' | (f & H')];
        [cbn in H'; intuition discriminate | discriminate]. }
    assert (H2 : ~ In (OriginalText t) stats)
      by (intros H; apply Hstat in H; discriminate).
    assert (H3 : forall total items,
               ~ In (OriginalText t) (map (history_expander total) items)).
    { intros total items H. destruct (Hmap _ _ _ H) as (l & b & H').
      discriminate. }
    destruct (truthy (strip (user_text s2)));
      destruct (truthy (current_answer s2));
      destruct (qa_history s2) as [| qa0 h0];
      destruct (user_text s2) as [| c0 t0];
      cbn [truthy]; rewrite !in_app_iff; cbn [In];
      try specialize (H3 (length (qa0 :: h0))
                        (enumerate (rev (slice_last 5 (qa0 :: h0)))));
      intuition (try discriminate; try congruence).
  - assert (H1 : ~ In StatisticsHeader (output w1)).
    { intros H. destruct (Hhead _ H) as [H' | (f & H')];
        [cbn in H'; intuition discriminate | discriminate]. }
    assert (H3 : forall total items,
               ~ In StatisticsHeader (map (history_expander total) items)).
    { intros total items H. destruct (Hmap _ _ _ H) as (l & b & H').
      discriminate. }
    rewrite <- Hstatshead.
    destruct (truthy (strip (user_text s2)));
      destruct (truthy (current_answer s2));
      destruct (qa_history s2) as [| qa0 h0];
      destruct (truthy (user_text s2));
      rewrite !in_app_iff; cbn [In];
      try specialize (H3 (length (qa0 :: h0))
                        (enumerate (rev (slice_last 5 (qa0 :: h0)))));
      intuition (try discriminate; try congruence).
  - assert (H1 : ~ In (Subheader 4) (output w1)).
    { intros H. destruct (Hhead _ H) as [H' | (f & H')];
        [cbn in H'; intuition discriminate | discriminate]. }
    assert (H2 : ~ In (Subheader 4) stats)
      by (intros H; apply Hstat in H; discriminate).
    destruct (truthy (strip (user_text s2)));
      destruct (truthy (current_answer s2));
      destruct (qa_history s2) as [| qa0 h0];
      destruct (truthy (user_text s2));
      rewrite !in_app_iff; cbn [In];
      intuition (try discriminate; try congruence).
Qed.

Lemma page_panels_follow_store_witness :
  fst (main (Demo.env None) Demo.idle Demo.sky None) = Normal tt /\
  ~ In InfoEnterText (output (snd (main (Demo.env None) Demo.idle Demo.sky
                                     None))).
Proof.
  assert (Hflow : fst (main (Demo.env None) Demo.idle Demo.sky None)
                  = Normal tt) by (vm_compute; reflexivity).
  split; [exact Hflow |].
  pose proof (page_panels_follow_store (Demo.env None) Demo.idle Demo.sky
                None Hflow) as H.
  cbv zeta in H. destruct H as (Hhint & _).
  intros Hin. pose proof (proj1 Hhint Hin) as Hblank.
  vm_compute in Hblank. discriminate Hblank.
Defined.

(** X15.  On a session that holds nothing, a fresh one or one that was
    just cleared, a run without the clear button, without a file and
    with an untouched text area displays the page heading, the heading of
    the question form, the hint to enter a text and the footer, and
    nothing else.  The form itself is not drawn, so whatever the form
    widgets hold, nothing is called and the session stays empty. *)
Theorem empty_session_page env ui raw cache :
  init_session_state raw = empty_session ->
  clear_button ui = false ->
  file_uploader ui = None ->
  text_area ui [] = [] ->
  main env ui raw cache
  = (Normal tt,
     {| session := empty_session; model_cache := cache;
        output := page_head ++ [Rule; Subheader 2; InfoEnterText; Rule; Footer];
        calls := [] |}).
Proof.
  intros Hempty Hclear Hf Hsame. rewrite main_unfold, Hempty.
  unfold page, sidebar, upload_section, text_section, statistics_section,
    question_section, answer_section, history_section,
    original_text_section, bind, get, emit, modify, when, ret.
  rewrite Hclear, Hf. cbn. rewrite Hsame. reflexivity.
Qed.

Lemma empty_session_page_witness :
  init_session_state fresh_state = empty_session /\
  output (snd (main (Demo.env None) (Demo.asking (str "Anyone?")) fresh_state
                 None))
  = page_head ++ [Rule; Subheader 2; InfoEnterText; Rule; Footer].
Proof.
  split; [reflexivity |].
  rewrite (empty_session_page (Demo.env None) (Demo.asking (str "Anyone?"))
             fresh_state None eq_refl eq_refl eq_refl eq_refl).
  reflexivity.
Defined.

(** ** What a submission stores *)

(** The reply of the chain, by what the libraries return or raise. *)
Lemma generate_answer_reply env context_text asked W reply cache' made :
  generate_answer env context_text asked W
  = (Normal reply,
     {| session := session W; model_cache := cache'; output := output W;
        calls := calls W ++ made |}) ->
  reply =
  match
    match model_cache W with
    | Some m => inr m
    | None =>
        ChatGoogleGenerativeAI env (GOOGLE_API_KEY env) temperature model_id
    end
  with
  | inl e => error_prefix ++ exn_str e
  | inr m =>
      match invoke m (format_prompt context_text asked) with
      | inl e => error_prefix ++ exn_str e
      | inr message =>
          match StrOutputParser env message with
          | inl e => error_prefix ++ exn_str e
          | inr result => result
          end
      end
  end.
Proof.
  intros Hgen.
  destruct (generate_answer_run env context_text asked W)
    as (flow & cache0 & made0 & Hrun & Hflow & _).
  rewrite Hrun in Hgen. injection Hgen as Hnormal _ _.
  rewrite Hnormal in Hflow. unfold caught in Hflow.
  destruct (match model_cache W with
            | Some m => inr m
            | None =>
                ChatGoogleGenerativeAI env (GOOGLE_API_KEY env) temperature
                  model_id
            end) as [e | m];
    [destruct (is_exception e); congruence |].
  destruct (invoke m (format_prompt context_text asked)) as [e | message];
    [destruct (is_exception e); congruence |].
  destruct (StrOutputParser env message) as [e | result];
    [destruct (is_exception e); congruence | congruence].
Qed.

(** X16.  In a run without the clear button that ends by a rerun
    request, the latest answer and the answer of the newest history
    entry are the outcome of the chain on the template filled with the
    context text the run leaves in the store and the question typed: the
    parsed reply when the client (the cached one, or the one built now),
    the model call and the parser succeed, and otherwise
    ["Error generating answer: "] followed by the message of the first
    of them that raised.  A failed attempt is recorded like an answer. *)
Theorem submission_stores_chain_outcome env ui raw cache :
  clear_button ui = false ->
  let r := main env ui raw cache in
  let s' := session (snd r) in
  fst r = RerunException ->
  let outcome :=
    match
      match cache with
      | Some m => inr m
      | None =>
          ChatGoogleGenerativeAI env (GOOGLE_API_KEY env) temperature model_id
      end
    with
    | inl e => error_prefix ++ exn_str e
    | inr m =>
        match invoke m (format_prompt (user_text s') (text_input ui)) with
        | inl e => error_prefix ++ exn_str e
        | inr message =>
            match StrOutputParser env message with
            | inl e => error_prefix ++ exn_str e
            | inr result => result
            end
        end
    end in
  current_answer s' = outcome /\
  exists qa, last_entry (qa_history s') = Some qa /\ answer qa = outcome.
Proof.
  intros Hclear r s'. subst s' r. rewrite main_unfold.
  set (w0 := {| session := init_session_state raw; model_cache := cache;
                output := []; calls := [] |}).
  intros Hrerun.
  destruct (page_outcome env ui w0 Hclear)
    as [(f & e & _ & _ & Hflow' & _) | (w1 & _ & Hend)].
  - rewrite Hflow' in Hrerun. discriminate.
  - cbv zeta in Hend.
    destruct (submits ui (session (snd (text_section ui w1)))).
    + submission Hend; [| rewrite Hflow in Hrerun; discriminate].
      apply generate_answer_reply in Hgen. rewrite HWcache in Hgen.
      cbn [model_cache w0] in Hgen.
      subst reply. rewrite Hs. cbv zeta. split; [reflexivity |].
      eexists. split; [apply last_entry_app | reflexivity].
    + destruct Hend as (Hflow' & _). rewrite Hflow' in Hrerun. discriminate.
Qed.

Lemma submission_stores_chain_outcome_witness :
  clear_button (Demo.asking (str "What color is the sky?")) = false /\
  fst (main (Demo.env (Some (str "k")))
         (Demo.asking (str "What color is the sky?")) Demo.sky None)
  = RerunException /\
  current_answer
    (session (snd (main (Demo.env (Some (str "k")))
                     (Demo.asking (str "What color is the sky?"))
                     Demo.sky None)))
  = str "The sky is blue.".
Proof.
  assert (Hflow : fst (main (Demo.env (Some (str "k")))
                         (Demo.asking (str "What color is the sky?"))
                         Demo.sky None) = RerunException)
    by (vm_compute; reflexivity).
  split; [reflexivity |]. split; [exact Hflow |].
  pose proof (submission_stores_chain_outcome (Demo.env (Some (str "k")))
                (Demo.asking (str "What color is the sky?")) Demo.sky None
                eq_refl Hflow) as H.
  cbv zeta in H. destruct H as (H & _). rewrite H. reflexivity.
Defined.

(** ** The upload marker *)

Lemma main_keeps_file_marker env ui raw cache :
  (file_uploaded (init_session_state raw) = false ->
   file_name (init_session_state raw) = []) ->
  file_uploaded (session (snd (main env ui raw cache))) = false ->
  file_name (session (snd (main env ui raw cache))) = [].
Proof.
  intros Hinv. rewrite main_unfold.
  set (w0 := {| session := init_session_state raw; model_cache := cache;
                output := []; calls := [] |}).
  destruct (clear_button ui) eqn:Hclear.
  - pose proof (page_run env ui w0) as Hrun. rewrite Hclear in Hrun.
    rewrite Hrun. reflexivity.
  - destruct (page_outcome env ui w0 Hclear)
      as [(f & e & _ & _ & _ & Hs & _) | (w1 & Hup & Hend)].
    + rewrite Hs. exact Hinv.
    + assert (Hs2 : file_uploaded (session (snd (text_section ui w1))) = false
                    -> file_name (session (snd (text_section ui w1))) = []).
      { rewrite text_section_run. cbn [snd session].
        destruct (pystr_eqb _ _); [| reflexivity].
        rewrite upload_section_run in Hup.
        destruct (file_uploader ui) as [f |].
        - destruct (decode_utf8 env (read f)); [discriminate |].
          injection Hup as <-. cbn. discriminate.
        - injection Hup as <-. exact Hinv. }
      cbv zeta in Hend.
      destruct (submits ui (session (snd (text_section ui w1)))).
      * submission Hend; rewrite Hs; exact Hs2.
      * destruct Hend as (_ & Hs & _). rewrite Hs. exact Hs2.
Qed.

(** X17.  Along a visit that starts with a fresh session, whenever the
    file-uploaded flag is off the file name is empty: the two are set
    together by an upload and reset together by a manual edit and by
    clearing. *)
Theorem file_name_empty_unless_uploaded runs cache :
  let s := init_session_state (fst (visit runs fresh_state cache)) in
  file_uploaded s = false -> file_name s = [].
Proof.
  cbv zeta.
  assert (Hgen : forall raw c,
             (file_uploaded (init_session_state raw) = false ->
              file_name (init_session_state raw) = []) ->
             file_uploaded (init_session_state (fst (visit runs raw c)))
             = false ->
             file_name (init_session_state (fst (visit runs raw c))) = []).
  { induction runs as [| [env ui] rest IH]; intros raw c Hinv.
    - exact Hinv.
    - cbn [visit]. apply IH. rewrite init_session_state_stored.
      apply main_keeps_file_marker, Hinv. }
  apply Hgen. reflexivity.
Qed.

Lemma file_name_empty_unless_uploaded_witness :
  let runs := [(Demo.env None,
                Demo.uploading {| name := str "sky.txt"; read := [x68; x69] |});
               (Demo.env None, Demo.typing (str "Grass is green."))] in
  let s := init_session_state (fst (visit runs fresh_state None)) in
  file_uploaded s = false /\ file_name s = [].
Proof.
  intros runs s.
  assert (H : file_uploaded s = false) by (vm_compute; reflexivity).
  split; [exact H |].
  exact (file_name_empty_unless_uploaded runs None H).
Defined.
